(** * The uptime monitor of [monitor/monitor.py]

    A shallow embedding of the check-and-notify engine: the probe, the
    history table, the state cache, the notifier with its two transports,
    the per-target polling loop and the start-up sequence.

    The program talks to the outside world (HTTP, SQLite, Telegram, SMTP,
    the file system).  Every such call is an oracle: the answer the
    outside world gives is an input of the model ([cycle_env] for one
    polling cycle, [startup_env] for start-up), and what the program does
    to the outside world is recorded as a list of [event]s.

    A cycle of [check_once] is one step of the model.  The tasks of
    different targets interleave at the [await]s of a cycle; the lines
    that read and write [state_cache] hold no [await], so that step is
    atomic in the program too, and the statements below hold from any
    state of the cache. *)

From Stdlib Require Import ZArith Lia Ascii String.
From stdpp Require Import base option list strings gmap pretty sorting.

Set Warnings "-register-all".

Open Scope string_scope.
Open Scope list_scope.
Open Scope Z_scope.

(** ** Python values *)

(** What [yaml.safe_load] can return, as far as the monitor looks at it:
    [None], strings, integers, lists and mappings with string keys.
    Booleans and floats are left out (as dictionary keys Python
    identifies [True] with [1] and [1.0]). *)
Inductive pyval :=
| PNone
| PStr (s : string)
| PInt (n : Z)
| PList (l : list pyval)
| PDict (d : list (string * pyval)).

(** Exceptions, by class.  Every one of them derives from [Exception]. *)
Inductive exn_class :=
| OSError | YAMLError | AttributeError | TypeError | KeyError
| ClientError | TimeoutError | SqliteError | SMTPError
| ValueError | IndexError | OverflowError.

Inductive exn := Exn (cls : exn_class) (msg : string).

(** [str(e)] *)
Definition exn_str (e : exn) : string := let 'Exn _ msg := e in msg.

(** The items of a dict, in order; keys are unique, so the first match is
    the entry. *)
Fixpoint dict_lookup (d : list (string * pyval)) (k : string) : option pyval :=
  match d with
  | [] => None
  | (k', v) :: d' => if String.eqb k' k then Some v else dict_lookup d' k
  end.

(** [o.get(k, dflt)]: only a dict has the method. *)
Definition py_get (o : pyval) (k : string) (dflt : pyval) : exn + pyval :=
  match o with
  | PDict d => inr (default dflt (dict_lookup d k))
  | _ => inl (Exn AttributeError "object has no attribute 'get'")
  end.

(** [o[k]] for a string [k]. *)
Definition py_getitem (o : pyval) (k : string) : exn + pyval :=
  match o with
  | PDict d =>
      match dict_lookup d k with
      | Some v => inr v
      | None => inl (Exn KeyError k)
      end
  | PStr _ | PList _ => inl (Exn TypeError "indices must be integers")
  | PNone | PInt _ => inl (Exn TypeError "object is not subscriptable")
  end.

Fixpoint chars (s : string) : list pyval :=
  match s with
  | EmptyString => []
  | String c s' => PStr (String c EmptyString) :: chars s'
  end.

(** [for t in o]: the elements the loop visits. *)
Definition py_iter (o : pyval) : exn + list pyval :=
  match o with
  | PList l => inr l
  | PDict d => inr (map (fun kv => PStr (fst kv)) d)
  | PStr s => inr (chars s)
  | PNone | PInt _ => inl (Exn TypeError "object is not iterable")
  end.

(** Hashable values, the keys of a dict. *)
Inductive hkey := HNone | HStr (s : string) | HInt (n : Z).

#[global] Instance hkey_eq_dec : EqDecision hkey.
Proof. solve_decision. Defined.

Definition hkey_enc (k : hkey) : unit + (string + Z) :=
  match k with HNone => inl tt | HStr s => inr (inl s) | HInt n => inr (inr n) end.

Definition hkey_dec (x : unit + (string + Z)) : hkey :=
  match x with inl _ => HNone | inr (inl s) => HStr s | inr (inr n) => HInt n end.

#[global] Instance hkey_countable : Countable hkey.
Proof. apply (inj_countable' hkey_enc hkey_dec). by intros []. Defined.

(** [hash(o)]: lists and dicts are unhashable. *)
Definition py_hash (o : pyval) : exn + hkey :=
  match o with
  | PNone => inr HNone
  | PStr s => inr (HStr s)
  | PInt n => inr (HInt n)
  | PList _ | PDict _ => inl (Exn TypeError "unhashable type")
  end.

(** An f-string (or a [%s] argument list) before rendering: literal
    text, values whose [str()] is substituted, and local times formatted
    by [time.strftime]. *)
Inductive part :=
| Lit (s : string)
| Fmt (v : pyval)
| Strftime (format : string) (seconds : Z).

(** ** Data model *)

Inductive status := UP | DOWN.

#[global] Instance status_eq_dec : EqDecision status.
Proof. solve_decision. Defined.

Definition status_str (s : status) : string :=
  match s with UP => "UP" | DOWN => "DOWN" end.

(** The module-level configuration, read from the process environment
    once at import. *)
Record config := {
  DB_FILE : string;
  CHECK_INTERVAL : Z;
  TIMEOUT : Z;
  TELEGRAM_TOKEN : string;
  TELEGRAM_CHAT_ID : string;
  SMTP_HOST : string;
  SMTP_PORT : Z;
  SMTP_USER : string;
  SMTP_PASS : string;
  EMAIL_TO : string;
  TARGETS_FILE : string;
  PORT : Z
}.

(** One row of the table [checks]. *)
Module checks.
Record row := {
  id : Z;
  name : pyval;
  url : pyval;
  status : status;
  http_code : option Z;
  latency_ms : option Z;
  ts : Z
}.
End checks.

(** The email built by [send_email_sync]. *)
Record email := {
  From_ : string;
  To : string;
  Subject : list part;
  content : list part
}.

Inductive level := DEBUG | INFO | WARNING | ERROR.

(** What the program does to the outside world. *)
Inductive event :=
| EvGet (url : pyval) (timeout : Z)
| EvNotify (name url : pyval) (st : status) (details : string)
| EvTelegramPost (api : string) (chat_id : string) (text : list part)
| EvSmtp (host : string) (port : Z) (login : option (string * string)) (msg : email)
| EvLog (lvl : level) (fmt : string) (args : list part)
| EvSleep (seconds : Z)
| EvCreateTask (target : pyval)
| EvRunApp (routes : list string) (host : string) (port : Z).

(** The mutable state: the module-level [state_cache] (a value is [None],
    ["UP"] or ["DOWN"]) and the table [checks] in insertion order. *)
Record world := {
  state_cache : gmap hkey (option status);
  db : list checks.row
}.

(** ** Computations: state, exceptions and the event log *)

Inductive res (A : Type) := Ret (a : A) | Raise (e : exn).
Arguments Ret {A} a.
Arguments Raise {A} e.

Definition M (A : Type) : Type := world -> res A * world * list event.

Definition ret {A} (a : A) : M A := fun w => (Ret a, w, []).

Definition bind {A B} (m : M A) (k : A -> M B) : M B :=
  fun w =>
    match m w with
    | (Ret a, w1, t1) => let '(r, w2, t2) := k a w1 in (r, w2, t1 ++ t2)
    | (Raise e, w1, t1) => (Raise e, w1, t1)
    end.

Definition raise {A} (e : exn) : M A := fun w => (Raise e, w, []).

(** [try: m  except Exception as e: h e] *)
Definition try_except {A} (m : M A) (h : exn -> M A) : M A :=
  fun w =>
    match m w with
    | (Ret a, w1, t1) => (Ret a, w1, t1)
    | (Raise e, w1, t1) => let '(r, w2, t2) := h e w1 in (r, w2, t1 ++ t2)
    end.

Definition emit (ev : event) : M unit := fun w => (Ret tt, w, [ev]).

Definition lift {A} (x : exn + A) : M A :=
  match x with inl e => raise e | inr a => ret a end.

(** An external call that returns nothing: it raises when the outside
    world says so. *)
Definition may_raise (o : option exn) : M unit :=
  match o with Some e => raise e | None => ret tt end.

#[global] Instance M_ret : MRet M := @ret.
#[global] Instance M_bind : MBind M := fun A B k m => bind m k.

Definition result {A} (x : res A * world * list event) : res A := fst (fst x).
Definition final {A} (x : res A * world * list event) : world := snd (fst x).
Definition events {A} (x : res A * world * list event) : list event := snd x.

(** [logging.basicConfig(level=logging.INFO)]: a record below [INFO] is
    dropped, the others are written. *)
Definition level_no (lvl : level) : Z :=
  match lvl with DEBUG => 10 | INFO => 20 | WARNING => 30 | ERROR => 40 end.

Definition LOG (lvl : level) (fmt : string) (args : list part) : M unit :=
  if level_no INFO <=? level_no lvl then emit (EvLog lvl fmt args) else ret tt.

Definition read_world : M world := fun w => (Ret w, w, []).
Definition write_world (w' : world) : M unit := fun _ => (Ret tt, w', []).

(** [state_cache.get(k)] and [state_cache[k] = v] *)
Definition cache_get (k : pyval) : M (option status) :=
  h ← lift (py_hash k);
  w ← read_world;
  mret (default None (state_cache w !! h)).

Definition cache_set (k : pyval) (v : option status) : M unit :=
  h ← lift (py_hash k);
  w ← read_world;
  write_world {| state_cache := <[h := v]> (state_cache w); db := db w |}.

(** ** The outside world *)

(** The answer to [session.get(url, timeout=TIMEOUT)]: a response with its
    status code, received [elapsed_ms] milliseconds after the start, or an
    exception (DNS, connect, TLS, timeout, malformed response). *)
Inductive http_answer :=
| Response (code : Z) (elapsed_ms : Z)
| GetRaises (e : exn).

(** The answer to the POST to the Telegram API: a response with its status
    code and its body, or the exception of the POST (or of reading the
    body of a response that is not a 200). *)
Inductive telegram_answer :=
| PostResponse (code : Z) (body : string)
| PostRaises (e : exn).

(** What the outside world answers during one cycle of one target. *)
Record cycle_env := {
  http_get : http_answer;
  (** the exception of [connect], [execute] or [commit], if one is raised *)
  sqlite_insert : option exn;
  (** the unused id SQLite picks at random when the largest id of the
      table is 2^63-1 *)
  sqlite_random : Z;
  (** [int(time.time())] when the row is written *)
  time_now : Z;
  telegram_post : telegram_answer;
  (** the exception of building the [EmailMessage] (a line break in a
      header value, a malformed address), if one is raised *)
  email_build : option exn;
  (** the exception of the SMTP session, if one is raised *)
  smtp_session : option exn
}.

(** The answer to opening and parsing [TARGETS_FILE]. *)
Inductive file_answer :=
| OpenRaises (e : exn)
| LoadRaises (e : exn)
| Loaded (data : pyval).

Record startup_env := {
  sqlite_create : option exn;
  targets_file : file_answer
}.

(** What the outside world answers while the dashboard is served: the
    exception of [connect], [execute] or [fetchall], if one is raised, and
    for every timestamp the exception of [time.localtime], if it raises
    one (a timestamp out of the platform's range). *)
Record page_env := {
  sqlite_select : option exn;
  localtime : Z -> option exn
}.

(** ** The table [checks] *)

(** The largest rowid: 2^63-1. *)
Definition max_rowid : Z := 9223372036854775807.

(** [id INTEGER PRIMARY KEY] is SQLite's rowid.  A row inserted without
    an id gets 1 in an empty table and otherwise one more than the largest
    id in the table (also when that is negative); when the largest id is
    2^63-1 SQLite picks an unused id at random, [random] here (when it
    finds none the insert raises, which is an answer of [sqlite_insert]). *)
Definition next_rowid (random : Z) (t : list checks.row) : Z :=
  match map checks.id t with
  | [] => 1
  | i :: ids =>
      let largest := foldr Z.max i ids in
      if largest <? max_rowid then largest + 1 else random
  end.

Definition insert_row (random : Z) (t : list checks.row)
    (name url : pyval) (st : status) (code latency : option Z) (ts : Z)
  : list checks.row :=
  t ++ [ {| checks.id := next_rowid random t; checks.name := name; checks.url := url;
            checks.status := st; checks.http_code := code;
            checks.latency_ms := latency; checks.ts := ts |} ].

(** [ORDER BY id DESC]: ids are unique (primary key), so the order of the
    result does not depend on how the rows are stored. *)
Fixpoint place (r : checks.row) (sorted : list checks.row) : list checks.row :=
  match sorted with
  | [] => [r]
  | r' :: rest =>
      if checks.id r' <? checks.id r then r :: sorted else r' :: place r rest
  end.

Definition order_by_id_desc (t : list checks.row) : list checks.row :=
  foldr place [] t.

(** The six columns the dashboard selects. *)
Definition columns (r : checks.row)
  : pyval * pyval * status * option Z * option Z * Z :=
  (checks.name r, checks.url r, checks.status r,
   checks.http_code r, checks.latency_ms r, checks.ts r).

(** [SELECT name, url, status, http_code, latency_ms, ts FROM checks
     ORDER BY id DESC LIMIT 100] *)
Definition select_recent (t : list checks.row)
  : list (pyval * pyval * status * option Z * option Z * Z) :=
  map columns (take 100 (order_by_id_desc t)).

(** ** The program *)

Definition nl : string := String "010"%char EmptyString.

(** [not s] for a string: true for the empty string only. *)
Definition py_not (s : string) : bool := String.eqb s "".

(** The integers from here on are too large to convert to a float:
    2^1024 - 2^970, half a step above the largest float. *)
Definition sleep_limit : Z := 2 ^ 1024 - 2 ^ 970.

Section monitor.
Context (cfg : config).

Definition send_telegram (e : cycle_env) (text : list part) : M unit :=
  if py_not (TELEGRAM_TOKEN cfg) || py_not (TELEGRAM_CHAT_ID cfg) then
    LOG DEBUG "Telegram not configured" []
  else
    let url := "https://api.telegram.org/bot" +:+ TELEGRAM_TOKEN cfg +:+ "/sendMessage" in
    emit (EvTelegramPost url (TELEGRAM_CHAT_ID cfg) text);;
    match telegram_post e with
    | PostRaises x => raise x
    | PostResponse code body =>
        if negb (code =? 200) then
          LOG WARNING "Telegram send failed: %s" [Lit body]
        else mret tt
    end.

(** Lines 47-51 build the [EmailMessage] before the [try] of line 52: an
    exception of theirs leaves the function. *)
Definition send_email_sync (e : cycle_env) (subject body : list part) : M unit :=
  if py_not (SMTP_HOST cfg) || py_not (EMAIL_TO cfg) then
    LOG DEBUG "Email not configured" []
  else
    may_raise (email_build e);;
    let msg := {| From_ := if py_not (SMTP_USER cfg) then "monitor@example.com"
                           else SMTP_USER cfg;
                  To := EMAIL_TO cfg;
                  Subject := subject;
                  content := body |} in
    try_except
      (let login := if negb (py_not (SMTP_USER cfg)) && negb (py_not (SMTP_PASS cfg))
                    then Some (SMTP_USER cfg, SMTP_PASS cfg) else None in
       emit (EvSmtp (SMTP_HOST cfg) (SMTP_PORT cfg) login msg);;
       may_raise (smtp_session e))
      (fun x => LOG ERROR "Sending email failed: %s" [Lit (exn_str x)]).

Definition notify (e : cycle_env) (name url : pyval) (st : status)
    (details : string) : M unit :=
  emit (EvNotify name url st details);;
  let text := [Lit "["; Fmt name; Lit "] "; Fmt url; Lit " -> ";
               Lit (status_str st); Lit nl; Lit details] in
  send_telegram e text;;
  send_email_sync e [Lit "Monitor: "; Fmt name; Lit " "; Lit (status_str st)] text.

(** [CREATE TABLE IF NOT EXISTS]: an existing table keeps its rows. *)
Definition init_db (s : startup_env) : M unit :=
  may_raise (sqlite_create s).

Definition read_targets (s : startup_env) : M pyval :=
  data ← match targets_file s with
         | OpenRaises x => raise x
         | LoadRaises x => raise x
         | Loaded data => mret data
         end;
  lift (py_get data "targets" (PList [])).

(** Lines 92-103: the probe.  It yields [(status, code, latency,
    text_details)]. *)
Definition probe (e : cycle_env) (url : pyval)
  : M (status * option Z * option Z * string) :=
  try_except
    (emit (EvGet url (TIMEOUT cfg));;
     match http_get e with
     | Response code latency =>
         mret (if code <? 500 then UP else DOWN, Some code, Some latency,
               "HTTP " +:+ pretty code +:+ " in " +:+ pretty latency +:+ "ms")
     | GetRaises x => raise x
     end)
    (fun x => mret (DOWN, None, None, exn_str x)).

(** Lines 105-109: save to db. *)
Definition save (e : cycle_env) (name url : pyval) (st : status)
    (code latency : option Z) : M unit :=
  may_raise (sqlite_insert e);;
  w ← read_world;
  write_world {| state_cache := state_cache w;
                 db := insert_row (sqlite_random e) (db w) name url st code latency
                         (time_now e) |}.

Definition check_once (e : cycle_env) (target : pyval) : M unit :=
  name ← lift (py_get target "name" PNone);
  url ← lift (py_get target "url" PNone);
  '(st, code, latency, text_details) ← probe e url;
  save e name url st code latency;;
  (* notify on change *)
  old ← cache_get url;
  (if bool_decide (old ≠ Some st) then
     cache_set url (Some st);;
     notify e name url st text_details
   else mret tt);;
  LOG INFO "%s %s -> %s (%s)"
      [Fmt name; Fmt url; Lit (status_str st); Lit text_details].

(** [asyncio.sleep(delay)] compares [delay] with 0 first, which raises
    for a value that is not a number; a delay of 0 or less returns at
    once; a larger one is added to the clock, a float, which raises for an
    integer that no float can hold.  (Floats and booleans, which it takes
    as delays too, are not values of [pyval].) *)
Definition sleep (delay : pyval) : M unit :=
  match delay with
  | PInt n =>
      if n <=? 0 then emit (EvSleep n)
      else if n <? sleep_limit then emit (EvSleep n)
      else raise (Exn OverflowError "int too large to convert to float")
  | _ => raise (Exn TypeError "'<=' not supported")
  end.

(** [while True]: one element of [es] is consumed per iteration.  The
    loop has no exit, so [Ret tt] means that it is still running when
    the observation ends, and [Raise] that it has terminated. *)
Fixpoint polling (target interval : pyval) (es : list cycle_env) : M unit :=
  match es with
  | [] => mret tt
  | e :: es' =>
      check_once e target;;
      sleep interval;;
      polling target interval es'
  end.

Definition periodic_worker (target : pyval) (es : list cycle_env) : M unit :=
  interval ← lift (py_get target "interval" (PInt (CHECK_INTERVAL cfg)));
  polling target interval es.

(** [str()] of a nullable integer column. *)
Definition fmt_opt (o : option Z) : part :=
  match o with Some n => Fmt (PInt n) | None => Fmt PNone end.

Definition render (items : list (pyval * pyval * status * option Z * option Z * Z))
  : list part :=
  let line it :=
    let '(name, url, st, code, latency, ts) := it in
    [Lit "<tr><td>"; Fmt name; Lit "</td><td>"; Fmt url; Lit "</td><td>";
     Lit (status_str st); Lit "</td><td>"; fmt_opt code; Lit "</td><td>";
     fmt_opt latency; Lit "</td><td>"; Strftime "%Y-%m-%d %H:%M:%S" ts;
     Lit "</td></tr>"] in
  [Lit "<html><head><meta charset='utf-8'><title>Monitor</title></head><body>";
   Lit "<h1>Monitor - recent checks</h1><table border='1' cellpadding='6'><tr><th>Name</th><th>URL</th><th>Status</th><th>Code</th><th>Latency ms</th><th>Time</th></tr>"]
  ++ concat (map line items) ++ [Lit "</table></body></html>"].

(** The second loop of [handle_index] formats the time of every item, in
    order: the first timestamp [time.localtime] refuses ends it. *)
Fixpoint format_times (q : page_env) (items : list (pyval * pyval * status * option Z * option Z * Z))
  : M unit :=
  match items with
  | [] => mret tt
  | (_, _, _, _, _, ts) :: rest => may_raise (localtime q ts);; format_times q rest
  end.

(** The dashboard: it reads the table and answers with the page made of
    the rows.  Nothing is in a [try]. *)
Definition handle_index (q : page_env) : M (list part) :=
  may_raise (sqlite_select q);;
  w ← read_world;
  let rows := select_recent (db w) in
  format_times q rows;;
  mret (render rows).

(** The first loop of [init_app]: seed the state cache. *)
Fixpoint seed (targets : list pyval) : M unit :=
  match targets with
  | [] => mret tt
  | t :: rest =>
      u ← lift (py_getitem t "url");
      cache_set u None;;
      seed rest
  end.

(** The second loop: start the periodic tasks. *)
Fixpoint start (targets : list pyval) : M unit :=
  match targets with
  | [] => mret tt
  | t :: rest => emit (EvCreateTask t);; start rest
  end.

(** It returns the application, that is its routes. *)
Definition init_app (s : startup_env) : M (list string) :=
  init_db s;;
  targets ← read_targets s;
  ts ← lift (py_iter targets);
  seed ts;;
  ts ← lift (py_iter targets);
  start ts;;
  mret ["/"].

(** [web.run_app(init_app(), host="0.0.0.0", port=...)]: an exception of
    [init_app] ends the process before anything is served. *)
Definition main (s : startup_env) : M unit :=
  app ← init_app s;
  emit (EvRunApp app "0.0.0.0" (PORT cfg)).

End monitor.

(** ** Reading a run *)

Definition is_notify (ev : event) : bool :=
  match ev with EvNotify _ _ _ _ => true | _ => false end.

Definition is_telegram (ev : event) : bool :=
  match ev with EvTelegramPost _ _ _ => true | _ => false end.

Definition is_smtp (ev : event) : bool :=
  match ev with EvSmtp _ _ _ _ => true | _ => false end.

Definition is_log (ev : event) : bool :=
  match ev with EvLog _ _ _ => true | _ => false end.

Definition is_probe (ev : event) : bool :=
  match ev with EvGet _ _ => true | _ => false end.

Definition is_task (ev : event) : bool :=
  match ev with EvCreateTask _ => true | _ => false end.

Definition is_serving (ev : event) : bool :=
  match ev with EvRunApp _ _ _ => true | _ => false end.

(** How many events of one kind a run has. *)
Definition count (p : event -> bool) (t : list event) : nat :=
  length (filter (fun ev => p ev = true) t).

(** The seconds slept, in order. *)
Fixpoint sleeps (t : list event) : list Z :=
  match t with
  | [] => []
  | EvSleep n :: t' => n :: sleeps t'
  | _ :: t' => sleeps t'
  end.

(** Events of a delivery: posts, mail sessions and log records only. *)
Definition delivery (t : list event) : Prop :=
  Forall (fun ev => is_telegram ev || is_smtp ev || is_log ev = true) t.

(** [state_cache.get(url)] for a hashable [url]: [None] is the Unknown
    sentinel, and also what a missing key gives. *)
Definition cached (w : world) (k : hkey) : option status :=
  default None (state_cache w !! k).

(** [target.get("url")] for a target that is a dict. *)
Definition url_of (d : list (string * pyval)) : pyval :=
  default PNone (dict_lookup d "url").

Definition name_of (d : list (string * pyval)) : pyval :=
  default PNone (dict_lookup d "name").

(** The status a cycle observes, as a function of the answer. *)
Definition observed (e : cycle_env) : status :=
  match http_get e with
  | Response code _ => if code <? 500 then UP else DOWN
  | GetRaises _ => DOWN
  end.

(** ** Vocabulary of the statements *)

(** The table after the append of a cycle. *)
Definition saved (e : cycle_env) (d : list (string * pyval)) (w : world)
    (code latency : option Z) : list checks.row :=
  insert_row (sqlite_random e) (db w) (name_of d) (url_of d) (observed e) code latency
    (time_now e).

(** A target that [init_app] has registered: a dict whose [url] is
    hashable and is cached as [None], the Unknown sentinel. *)
Definition registered (w : world) (t : pyval) : Prop :=
  exists d u k, t = PDict d /\ dict_lookup d "url" = Some u
                /\ py_hash u = inr k /\ state_cache w !! k = Some None.

(** A cycle that reaches its end: the append returns, the POST to
    Telegram does not raise and the mail message can be built. *)
Definition completes (e : cycle_env) : Prop :=
  sqlite_insert e = None
  /\ (forall x, telegram_post e <> PostRaises x)
  /\ email_build e = None.

(** The number of status changes in a sequence of observations that
    starts from the cached status [c]. *)
Fixpoint transitions (c : option status) (obs : list status) : nat :=
  match obs with
  | [] => 0
  | st :: rest =>
      ((if bool_decide (c <> Some st) then 1 else 0) + transitions (Some st) rest)%nat
  end.

(** An entry [init_app] can register: [t["url"]] exists and is hashable. *)
Definition registrable (t : pyval) : bool :=
  match py_getitem t "url" with
  | inr u => match py_hash u with inr _ => true | inl _ => false end
  | inl _ => false
  end.

(** The value of [data.get("targets", [])] for a dict. *)
Definition targets_of (d : list (string * pyval)) : pyval :=
  default (PList []) (dict_lookup d "targets").

(** The target file is acceptable: the table can be created, the file
    loads as a mapping, and its targets, [ts], can all be registered. *)
Definition acceptable (s : startup_env) (ts : list pyval) : Prop :=
  sqlite_create s = None
  /\ exists d, targets_file s = Loaded (PDict d)
               /\ py_iter (targets_of d) = inr ts
               /\ forallb registrable ts = true.



(** The table has room for [n] more rows below the largest rowid: [n]
    more ids fit above every id it holds. *)
Definition has_room (n : nat) (t : list checks.row) : Prop :=
  Z.of_nat n < max_rowid
  /\ Forall (fun r => checks.id r + Z.of_nat n <= max_rowid) t.

(** ** Scenarios *)

(** Both transports configured. *)
Definition cfg_both : config :=
  {| DB_FILE := "/data/monitor.db"; CHECK_INTERVAL := 30; TIMEOUT := 10;
     TELEGRAM_TOKEN := "123:abc"; TELEGRAM_CHAT_ID := "42";
     SMTP_HOST := "smtp.example.com"; SMTP_PORT := 587;
     SMTP_USER := "monitor"; SMTP_PASS := "secret";
     EMAIL_TO := "ops@example.com";
     TARGETS_FILE := "/app/targets.yml"; PORT := 8080 |}.

(** No transport configured. *)
Definition cfg_none : config :=
  {| DB_FILE := "/data/monitor.db"; CHECK_INTERVAL := 30; TIMEOUT := 10;
     TELEGRAM_TOKEN := ""; TELEGRAM_CHAT_ID := "";
     SMTP_HOST := ""; SMTP_PORT := 587; SMTP_USER := ""; SMTP_PASS := "";
     EMAIL_TO := "";
     TARGETS_FILE := "/app/targets.yml"; PORT := 8080 |}.

Definition api : list (string * pyval) :=
  [("name", PStr "api"); ("url", PStr "https://example.com/health");
   ("interval", PInt 30)].

Definition api_key : hkey := HStr "https://example.com/health".

Definition fresh : world := {| state_cache := ∅; db := [] |}.

(** The world after [init_app] has registered [api]. *)
Definition seeded : world := {| state_cache := {[ api_key := None ]}; db := [] |}.

(** The world once [api] has been seen UP. *)
Definition known_up : world := {| state_cache := {[ api_key := Some UP ]}; db := [] |}.

(** HTTP 200 after 50 ms, and everything else works. *)
Definition all_well : cycle_env :=
  {| http_get := Response 200 50; sqlite_insert := None; sqlite_random := 0;
     time_now := 1700000000;
     telegram_post := PostResponse 200 "{}"; email_build := None;
     smtp_session := None |}.

(** HTTP 404 after 20 ms. *)
Definition not_found : cycle_env :=
  {| http_get := Response 404 20; sqlite_insert := None; sqlite_random := 0;
     time_now := 1700000000;
     telegram_post := PostResponse 200 "{}"; email_build := None;
     smtp_session := None |}.

(** The probe times out, and everything else works.  The
    [asyncio.TimeoutError] of a timeout has no message: its [str()] is
    empty. *)
Definition timed_out : cycle_env :=
  {| http_get := GetRaises (Exn TimeoutError ""); sqlite_insert := None;
     sqlite_random := 0; time_now := 1700000030;
     telegram_post := PostResponse 200 "{}"; email_build := None;
     smtp_session := None |}.

(** The connection is refused, and everything else works. *)
Definition refused : cycle_env :=
  {| http_get := GetRaises (Exn ClientError "Cannot connect to host example.com:443");
     sqlite_insert := None; sqlite_random := 0; time_now := 1700000030;
     telegram_post := PostResponse 200 "{}"; email_build := None;
     smtp_session := None |}.

(** The probe times out, the mail server is down, Telegram answers 502. *)
Definition much_fails : cycle_env :=
  {| http_get := GetRaises (Exn TimeoutError ""); sqlite_insert := None;
     sqlite_random := 0; time_now := 1700000030;
     telegram_post := PostResponse 502 "Bad Gateway"; email_build := None;
     smtp_session := Some (Exn SMTPError "Connection refused") |}.

(** The history append raises. *)
Definition append_fails : cycle_env :=
  {| http_get := Response 200 50;
     sqlite_insert := Some (Exn SqliteError "disk I/O error");
     sqlite_random := 0; time_now := 1700000000;
     telegram_post := PostResponse 200 "{}"; email_build := None;
     smtp_session := None |}.

(** The POST to Telegram raises. *)
Definition telegram_unreachable : cycle_env :=
  {| http_get := GetRaises (Exn TimeoutError "timeout"); sqlite_insert := None;
     sqlite_random := 0; time_now := 1700000000;
     telegram_post := PostRaises (Exn ClientError "Cannot connect to host api.telegram.org:443");
     email_build := None; smtp_session := None |}.

(** A target file with an empty list of targets. *)
Definition no_targets : startup_env :=
  {| sqlite_create := None;
     targets_file := Loaded (PDict [("targets", PList [])]) |}.

Definition one_target : startup_env :=
  {| sqlite_create := None;
     targets_file := Loaded (PDict [("targets", PList [PDict api])]) |}.

(** ** What C3, C4, C5 and C7 ask *)

(** What C3 asks of a worker over the cycles [es]: it is still looping at
    the end and has slept after every cycle. *)
Definition keeps_polling (cfg : config) (t : pyval) (es : list cycle_env)
    (w : world) : Prop :=
  result (periodic_worker cfg t es w) = Ret tt
  /\ length (sleeps (events (periodic_worker cfg t es w))) = length es.

(** What C4 asks of a cycle whose append raises: a changed status is still
    notified, and the loop goes on to the next cycle. *)
Definition append_failure_tolerated (cfg : config) (e : cycle_env)
    (d : list (string * pyval)) (w : world) (k : hkey) : Prop :=
  (cached w k <> Some (observed e) ->
   count is_notify (events (check_once cfg e (PDict d) w)) = 1%nat)
  /\ forall e', keeps_polling cfg (PDict d) [e; e'] w.

(** What C5 asks of a notification: [notify] returns, and each
    configured transport is attempted. *)
Definition transports_isolated (cfg : config) (e : cycle_env)
    (name url : pyval) (st : status) (details : string) (w : world) : Prop :=
  let run := notify cfg e name url st details w in
  result run = Ret tt
  /\ (py_not (TELEGRAM_TOKEN cfg) || py_not (TELEGRAM_CHAT_ID cfg) = false ->
      count is_telegram (events run) = 1%nat)
  /\ (py_not (SMTP_HOST cfg) || py_not (EMAIL_TO cfg) = false ->
      count is_smtp (events run) = 1%nat).

(** What C6 asks of the detail of a failed probe: a description of the
    failure, so at least some text. *)
Definition describes_the_failure (details : string) : Prop := details <> "".

(** What C7 asks of a start-up it calls fatal: [init_app] raises, no task
    is created and nothing is served. *)
Definition refuses_to_start (cfg : config) (s : startup_env) (w : world) : Prop :=
  (exists x, result (main cfg s w) = Raise x)
  /\ count is_task (events (main cfg s w)) = 0%nat
  /\ count is_serving (events (main cfg s w)) = 0%nat.

(** ** Vocabulary of the further properties *)

(** The code, the latency and the detail a cycle records, as functions of
    the answer to the GET. *)
Definition code_of (e : cycle_env) : option Z :=
  match http_get e with Response code _ => Some code | GetRaises _ => None end.

Definition latency_of (e : cycle_env) : option Z :=
  match http_get e with Response _ ms => Some ms | GetRaises _ => None end.

Definition details_of (e : cycle_env) : string :=
  match http_get e with
  | Response code ms => "HTTP " +:+ pretty code +:+ " in " +:+ pretty ms +:+ "ms"
  | GetRaises x => exn_str x
  end.

(** The rows are stored in the order of their ids. *)
Definition ids_increasing (t : list checks.row) : Prop :=
  StronglySorted Z.lt (map checks.id t).

(** Newest first: the order of [ORDER BY id DESC]. *)
Definition newest_first (a b : checks.row) : Prop := checks.id b <= checks.id a.




(** The posts and the mail sessions of a run, in order. *)
Definition sent (t : list event) : list event :=
  filter (fun ev => is_telegram ev || is_smtp ev = true) t.


(** A target whose interval is [null]. *)
Definition no_interval : list (string * pyval) :=
  [("name", PStr "api"); ("url", PStr "https://example.com/health");
   ("interval", PNone)].

(** A target file whose second entry has no [url]. *)
Definition url_missing : startup_env :=
  {| sqlite_create := None;
     targets_file :=
       Loaded (PDict [("targets", PList [PDict api; PDict [("name", PStr "db")]])]) |}.

(** Only the mail transport configured, without credentials. *)
Definition cfg_mail : config :=
  {| DB_FILE := "/data/monitor.db"; CHECK_INTERVAL := 30; TIMEOUT := 10;
     TELEGRAM_TOKEN := ""; TELEGRAM_CHAT_ID := "";
     SMTP_HOST := "smtp.example.com"; SMTP_PORT := 587;
     SMTP_USER := ""; SMTP_PASS := "";
     EMAIL_TO := "ops@example.com";
     TARGETS_FILE := "/app/targets.yml"; PORT := 8080 |}.

(** The name of the target has a line break: the subject of the mail is
    refused. *)
Definition line_break : cycle_env :=
  {| http_get := Response 503 20; sqlite_insert := None; sqlite_random := 0;
     time_now := 1700000000;
     telegram_post := PostResponse 200 "{}";
     email_build :=
       Some (Exn ValueError
               "Header values may not contain linefeed or carriage return characters");
     smtp_session := None |}.

(** The table can be read and every time can be formatted. *)
Definition page_ok : page_env :=
  {| sqlite_select := None; localtime := fun _ => None |}.


(** The time cells of a page: there is one in every table row. *)
Definition is_time (p : part) : bool :=
  match p with Strftime _ _ => true | _ => false end.

(** A world whose table has rows from an earlier run. *)
Definition with_history : world :=
  {| state_cache := {[ api_key := Some UP ]};
     db := [ {| checks.id := 3; checks.name := PStr "api";
                checks.url := PStr "https://example.com/health";
                checks.status := UP; checks.http_code := Some 200;
                checks.latency_ms := Some 41; checks.ts := 1699990000 |};
             {| checks.id := 7; checks.name := PStr "api";
                checks.url := PStr "https://example.com/health";
                checks.status := UP; checks.http_code := Some 200;
                checks.latency_ms := Some 38; checks.ts := 1699990030 |} ] |}.

(** ** The probe *)

Lemma probe_observed cfg e url w :
  exists code latency details,
    probe cfg e url w
    = (Ret (observed e, code, latency, details), w, [EvGet url (TIMEOUT cfg)]).
Proof.
  unfold probe, observed, try_except. cbn.
  destruct (http_get e) as [c l | x]; cbn; eauto.
Qed.

(** C2: whatever the answer to the GET, the probe yields a status, and that
    status is DOWN exactly when the request failed outright (it raised) or
    the response code is at least 500; it is UP exactly when a response
    with a code below 500 came back, 404 included. *)
Theorem probe_status_classification cfg e url w :
  exists st code latency details,
    probe cfg e url w = (Ret (st, code, latency, details), w, [EvGet url (TIMEOUT cfg)])
    /\ (st = DOWN <->
          (exists x, http_get e = GetRaises x)
          \/ (exists c ms, http_get e = Response c ms /\ 500 <= c))
    /\ (st = UP <-> exists c ms, http_get e = Response c ms /\ c < 500)
    /\ (forall ms, http_get e = Response 404 ms -> st = UP).
Proof.
  unfold probe, try_except. cbn.
  destruct (http_get e) as [c ms | x] eqn:E; cbn.
  - destruct (Z.ltb_spec c 500) as [Hlt | Hge];
      do 4 eexists; (split; [reflexivity |]);
      (split; [| split]); try (split; intros); try discriminate; eauto.
    + destruct H as [[x Hx] | (c' & ms' & Hc & Hle)]; [discriminate |].
      injection Hc as <- <-. lia.
    + destruct H as (c' & ms' & Hc & Hle). injection Hc as <- <-. lia.
    + intros ms' Hms. injection Hms as -> _. lia.
  - do 4 eexists. split; [reflexivity |].
    (split; [| split]); try (split; intros); try discriminate; eauto.
    destruct H as (c & ms & Hc & _). discriminate.
Qed.

(** C6, as the code has it: the probe never raises.  When the GET raises,
    the exception is turned into a DOWN outcome whose detail is [str(e)],
    the message of the exception, whatever it is (it is empty for an
    exception raised without a message, as a timeout is), and whose code
    and latency are both [None]; and the code and the latency are [None]
    exactly when the GET raised, that is when no response was obtained. *)
Theorem probe_never_raises cfg e url w :
  exists st code latency details,
    result (probe cfg e url w) = Ret (st, code, latency, details)
    /\ final (probe cfg e url w) = w
    /\ (forall x, http_get e = GetRaises x ->
          st = DOWN /\ details = exn_str x /\ code = None /\ latency = None)
    /\ (code = None /\ latency = None <-> exists x, http_get e = GetRaises x)
    /\ (code = None <-> latency = None).
Proof.
  unfold probe, try_except, result, final. cbn.
  destruct (http_get e) as [c ms | x] eqn:E; cbn;
    do 4 eexists; (split; [reflexivity |]); (split; [reflexivity |]);
    (split; [| split; split]); intros; try discriminate; eauto.
  - destruct H; discriminate.
  - destruct H; discriminate.
  - injection H as <-. auto.
Qed.

(** ** Running a sequence of two computations *)

Lemma bind_run {A B} (m : M A) (k : A -> M B) w :
  (m ≫= k) w
  = match m w with
    | (Ret a, w1, t1) => let '(r, w2, t2) := k a w1 in (r, w2, t1 ++ t2)
    | (Raise x, w1, t1) => (Raise x, w1, t1)
    end.
Proof. reflexivity. Qed.

Lemma bind_ret {A B} (m : M A) (k : A -> M B) w a w1 t1 :
  m w = (Ret a, w1, t1) ->
  (m ≫= k) w = (let '(r, w2, t2) := k a w1 in (r, w2, t1 ++ t2)).
Proof. intros H. rewrite bind_run, H. reflexivity. Qed.

Lemma bind_raise {A B} (m : M A) (k : A -> M B) w x w1 t1 :
  m w = (Raise x, w1, t1) -> (m ≫= k) w = (Raise x, w1, t1).
Proof. intros H. rewrite bind_run, H. reflexivity. Qed.

Lemma count_app p t1 t2 : count p (t1 ++ t2) = (count p t1 + count p t2)%nat.
Proof. unfold count. rewrite filter_app, length_app. reflexivity. Qed.

Lemma sleeps_app t1 t2 : sleeps (t1 ++ t2) = sleeps t1 ++ sleeps t2.
Proof.
  induction t1 as [| ev t1 IH]; [reflexivity |].
  destruct ev; cbn; rewrite IH; reflexivity.
Qed.

Lemma delivery_app t1 t2 : delivery t1 -> delivery t2 -> delivery (t1 ++ t2).
Proof. apply Forall_app_2. Qed.

Lemma delivery_count t p :
  delivery t ->
  (forall ev, is_telegram ev || is_smtp ev || is_log ev = true -> p ev = false) ->
  count p t = 0%nat.
Proof.
  intros Ht Hp. unfold count.
  induction Ht as [| ev t Hev _ IH]; [reflexivity |].
  rewrite filter_cons, (Hp ev Hev).
  destruct (decide (false = true)); [discriminate | exact IH].
Qed.

Lemma delivery_no_notify t : delivery t -> count is_notify t = 0%nat.
Proof. intros H. apply (delivery_count t _ H). by intros []. Qed.

Lemma delivery_no_probe t : delivery t -> count is_probe t = 0%nat.
Proof. intros H. apply (delivery_count t _ H). by intros []. Qed.

Lemma delivery_no_sleep t : delivery t -> sleeps t = [].
Proof.
  induction 1 as [| ev t Hev _ IH]; [reflexivity |].
  destruct ev; try discriminate; exact IH.
Qed.


(** ** The transports and [notify] *)

Lemma py_not_true s : py_not s = true <-> s = "".
Proof. unfold py_not. apply String.eqb_eq. Qed.

(** C8: a transport whose configuration is missing (no Telegram token or no
    chat id; no SMTP host or no recipient) returns at once: it raises
    nothing, changes nothing, sends nothing, and writes nothing to the log
    (the record it logs is a DEBUG record, below the configured level). *)
Theorem unconfigured_transport_is_noop cfg e w :
  (TELEGRAM_TOKEN cfg = "" \/ TELEGRAM_CHAT_ID cfg = "" ->
   forall text, send_telegram cfg e text w = (Ret tt, w, []))
  /\ (SMTP_HOST cfg = "" \/ EMAIL_TO cfg = "" ->
      forall subject body, send_email_sync cfg e subject body w = (Ret tt, w, [])).
Proof.
  split; intros H ?; [unfold send_telegram | intros; unfold send_email_sync].
  - replace (py_not (TELEGRAM_TOKEN cfg) || py_not (TELEGRAM_CHAT_ID cfg)) with true.
    + reflexivity.
    + symmetry. apply orb_true_iff. rewrite !py_not_true. exact H.
  - replace (py_not (SMTP_HOST cfg) || py_not (EMAIL_TO cfg)) with true.
    + reflexivity.
    + symmetry. apply orb_true_iff. rewrite !py_not_true. exact H.
Qed.

(** The SMTP session is inside [try]: once the message is built,
    [send_email_sync] returns whatever the session does; it leaves the
    state alone. *)
Lemma send_email_sync_returns cfg e subject body w :
  exists r t, send_email_sync cfg e subject body w = (r, w, t)
              /\ delivery t
              /\ (email_build e = None -> r = Ret tt).
Proof.
  unfold send_email_sync, try_except, LOG, delivery.
  destruct (py_not (SMTP_HOST cfg) || py_not (EMAIL_TO cfg)); cbn; [eauto 6 |].
  rewrite bind_run.
  destruct (email_build e) as [x |]; cbn.
  { do 2 eexists. split; [reflexivity |]. split; [constructor | discriminate]. }
  destruct (smtp_session e); cbn; do 2 eexists; (split; [reflexivity |]);
    (split; [repeat constructor | reflexivity]).
Qed.

(** [send_telegram] returns unless the POST itself raises. *)
Lemma send_telegram_result cfg e text w :
  exists r t, send_telegram cfg e text w = (r, w, t)
    /\ delivery t
    /\ (r = Ret tt \/ exists x, telegram_post e = PostRaises x /\ r = Raise x)
    /\ ((forall x, telegram_post e <> PostRaises x) -> r = Ret tt).
Proof.
  unfold send_telegram, LOG, delivery.
  destruct (py_not (TELEGRAM_TOKEN cfg) || py_not (TELEGRAM_CHAT_ID cfg)); cbn.
  { do 2 eexists. split; [reflexivity |]. split; [constructor | auto]. }
  destruct (telegram_post e) as [code body | x]; cbn.
  - destruct (code =? 200); cbn; do 2 eexists;
      (split; [reflexivity |]); (split; [repeat constructor | auto]).
  - do 2 eexists. split; [reflexivity |]. split; [repeat constructor |].
    split; [eauto |]. intros H. destruct (H x eq_refl).
Qed.

Lemma notify_result cfg e name url st details w :
  exists r t, notify cfg e name url st details w
              = (r, w, EvNotify name url st details :: t)
    /\ delivery t
    /\ ((forall x, telegram_post e <> PostRaises x) -> email_build e = None ->
        r = Ret tt).
Proof.
  unfold notify.
  set (text := [Lit "["; _; _; _; _; _; _; _]).
  set (subject := [Lit "Monitor: "; _; _; _]).
  rewrite (bind_ret _ _ w tt w [EvNotify name url st details]) by reflexivity.
  destruct (send_telegram_result cfg e text w) as (r & t & Ht & Hn & Hr & Hok).
  destruct r as [[] | x].
  - destruct (send_email_sync_returns cfg e subject text w) as (r' & t' & Hm & Hn' & Hb).
    rewrite (bind_ret _ _ w tt w t Ht), Hm.
    do 2 eexists. split; [reflexivity |].
    split; [apply delivery_app; assumption | auto].
  - rewrite (bind_raise _ _ w x w t Ht).
    do 2 eexists. split; [reflexivity |]. split; [exact Hn |].
    intros Hp _. apply Hok, Hp.
Qed.

(** ** One cycle *)

Lemma save_run e name url st code latency w :
  save e name url st code latency w
  = match sqlite_insert e with
    | Some x => (Raise x, w, [])
    | None => (Ret tt,
               {| state_cache := state_cache w;
                  db := insert_row (sqlite_random e) (db w) name url st code latency
                          (time_now e) |},
               [])
    end.
Proof. unfold save. rewrite bind_run. destruct (sqlite_insert e); reflexivity. Qed.

Lemma cache_get_run u k w :
  py_hash u = inr k -> cache_get u w = (Ret (cached w k), w, []).
Proof. intros H. unfold cache_get. rewrite H. reflexivity. Qed.

Lemma cache_set_run u k v w :
  py_hash u = inr k ->
  cache_set u v w
  = (Ret tt, {| state_cache := <[k := v]> (state_cache w); db := db w |}, []).
Proof. intros H. unfold cache_set. rewrite H. reflexivity. Qed.

(** A cycle whose append raises stops there. *)
Lemma check_once_append_raises cfg e d w x :
  sqlite_insert e = Some x ->
  check_once cfg e (PDict d) w = (Raise x, w, [EvGet (url_of d) (TIMEOUT cfg)]).
Proof.
  intros Hx. unfold check_once. cbn [py_get lift].
  rewrite !(bind_ret _ _ w _ w []) by reflexivity. cbn [app].
  fold (url_of d). fold (name_of d).
  destruct (probe_observed cfg e (url_of d) w) as (code & lat & det & Hp).
  rewrite (bind_ret _ _ w _ w _ Hp).
  rewrite bind_run, save_run, Hx. reflexivity.
Qed.

(** A cycle that observes the cached status. *)
Lemma check_once_same cfg e d w k :
  sqlite_insert e = None ->
  py_hash (url_of d) = inr k ->
  cached w k = Some (observed e) ->
  exists code latency details,
    check_once cfg e (PDict d) w
    = (Ret tt,
       {| state_cache := state_cache w; db := saved e d w code latency |},
       [EvGet (url_of d) (TIMEOUT cfg);
        EvLog INFO "%s %s -> %s (%s)"
          [Fmt (name_of d); Fmt (url_of d); Lit (status_str (observed e));
           Lit details]]).
Proof.
  intros Hi Hk Hc. unfold check_once. cbn [py_get lift].
  rewrite !(bind_ret _ _ w _ w []) by reflexivity. cbn [app].
  fold (url_of d). fold (name_of d).
  destruct (probe_observed cfg e (url_of d) w) as (code & lat & det & Hp).
  rewrite (bind_ret _ _ w _ w _ Hp).
  exists code, lat, det.
  rewrite bind_run, save_run, Hi.
  rewrite bind_run, (cache_get_run _ k) by exact Hk.
  unfold cached in *. cbn [state_cache]. rewrite Hc.
  rewrite bool_decide_eq_false_2 by (intros H; apply H; reflexivity).
  reflexivity.
Qed.

(** A cycle that observes another status than the cached one. *)
Lemma check_once_change cfg e d w k :
  sqlite_insert e = None ->
  py_hash (url_of d) = inr k ->
  cached w k <> Some (observed e) ->
  exists code latency details r t,
    check_once cfg e (PDict d) w
    = (r,
       {| state_cache := <[k := Some (observed e)]> (state_cache w);
          db := saved e d w code latency |},
       EvGet (url_of d) (TIMEOUT cfg)
         :: EvNotify (name_of d) (url_of d) (observed e) details :: t)
    /\ delivery t
    /\ ((forall x, telegram_post e <> PostRaises x) -> email_build e = None ->
        r = Ret tt).
Proof.
  intros Hi Hk Hc. unfold check_once. cbn [py_get lift].
  rewrite !(bind_ret _ _ w _ w []) by reflexivity. cbn [app].
  fold (url_of d). fold (name_of d).
  destruct (probe_observed cfg e (url_of d) w) as (code & lat & det & Hp).
  rewrite (bind_ret _ _ w _ w _ Hp).
  exists code, lat, det.
  rewrite bind_run, save_run, Hi.
  rewrite bind_run, (cache_get_run _ k) by exact Hk.
  unfold cached in *. cbn [state_cache].
  rewrite bool_decide_eq_true_2 by exact Hc.
  rewrite bind_run, bind_run, (cache_set_run _ k) by exact Hk.
  cbn [state_cache db].
  match goal with |- context [notify cfg e ?n ?u ?s ?dt ?w'] =>
    destruct (notify_result cfg e n u s dt w') as (r & t & Hn & Hcnt & Hok);
    rewrite Hn
  end.
  destruct r as [[] | x].
  - exists (Ret tt), (t ++ [EvLog INFO "%s %s -> %s (%s)"
      [Fmt (name_of d); Fmt (url_of d); Lit (status_str (observed e)); Lit det]]).
    split; [reflexivity |]. split; [| auto].
    apply delivery_app; [exact Hcnt | repeat constructor].
  - exists (Raise x), t. split; [reflexivity |]. auto.
Qed.

(** ** Start-up *)

Lemma seed_run ts : forall w r w' t,
  seed ts w = (r, w', t) ->
  t = [] /\ db w' = db w
  /\ (forall k, state_cache w' !! k = Some None
                \/ state_cache w' !! k = state_cache w !! k)
  /\ (r = Ret tt -> Forall (registered w') ts).
Proof.
  induction ts as [| t0 rest IH]; intros w r w' t H.
  - injection H as <- <- <-. repeat split; auto.
  - cbn [seed] in H. rewrite bind_run in H.
    destruct (py_getitem t0 "url") as [x | u] eqn:Hu; cbn in H.
    { injection H as <- <- <-. repeat split; auto. discriminate. }
    rewrite bind_run in H.
    destruct (py_hash u) as [x | k0] eqn:Hk.
    { unfold cache_set in H. rewrite Hk in H. cbn in H.
      injection H as <- <- <-. repeat split; auto. discriminate. }
    rewrite (cache_set_run u k0 None w Hk) in H.
    destruct (seed rest _) as [[r1 w1] t1] eqn:Hs.
    injection H as <- <- <-.
    destruct (IH _ _ _ _ Hs) as (-> & Hdb & Hc & Hreg).
    cbn [state_cache db] in *.
    split; [reflexivity |]. split; [exact Hdb |]. split.
    + intros k. destruct (Hc k) as [Hn | He]; [auto |].
      rewrite He. rewrite lookup_insert. case_decide; auto.
    + intros ->. constructor; [| auto].
      destruct t0 as [| | | | d]; try discriminate.
      cbn in Hu. destruct (dict_lookup d "url") as [v |] eqn:Hv; [| discriminate].
      injection Hu as ->.
      exists d, u, k0. repeat split; auto.
      destruct (Hc k0) as [Hn | He]; [exact Hn |].
      rewrite He. apply lookup_insert_eq.
Qed.

Lemma start_run ts w : start ts w = (Ret tt, w, map EvCreateTask ts).
Proof.
  induction ts as [| t0 rest IH]; [reflexivity |].
  cbn [start]. rewrite bind_run. cbn. rewrite IH. reflexivity.
Qed.

(** What [init_app] does, by cases on where it stops. *)
Lemma init_app_run s w :
  (exists x w', init_app s w = (Raise x, w', []) /\ db w' = db w)
  \/ (exists ts w', init_app s w = (Ret ["/"], w', map EvCreateTask ts)
        /\ db w' = db w
        /\ sqlite_create s = None
        /\ (exists d, targets_file s = Loaded (PDict d)
              /\ py_iter (default (PList []) (dict_lookup d "targets")) = inr ts)
        /\ Forall (registered w') ts).
Proof.
  unfold init_app, init_db, read_targets.
  rewrite bind_run.
  destruct (sqlite_create s) as [x |]; cbn [may_raise].
  { left. eauto. }
  cbn. rewrite bind_run, bind_run.
  destruct (targets_file s) as [x | x | data]; cbn; [left; eauto .. |].
  destruct data as [| | | | d]; cbn; [left; eauto .. |].
  rewrite bind_run.
  destruct (py_iter _) as [x | ts] eqn:Hts; cbn; [left; eauto |].
  rewrite bind_run.
  destruct (seed ts w) as [[r w'] t] eqn:Hs.
  destruct (seed_run _ _ _ _ _ Hs) as (-> & Hdb & _ & Hreg).
  destruct r as [[] | x]; [| left; eauto].
  right. exists ts, w'.
  rewrite bind_run. cbn. rewrite bind_run, start_run. cbn.
  rewrite app_nil_r. repeat split; eauto.
Qed.

(** ** Change-triggered notification *)

(** The number of calls of [notify] in a cycle that reaches the cache,
    and the cached status it leaves. *)
Lemma cycle_notifications cfg e d w k :
  sqlite_insert e = None ->
  py_hash (url_of d) = inr k ->
  count is_notify (events (check_once cfg e (PDict d) w))
  = (if bool_decide (cached w k <> Some (observed e)) then 1 else 0)%nat
  /\ cached (final (check_once cfg e (PDict d) w)) k = Some (observed e).
Proof.
  intros Hi Hk. case_bool_decide as Hc.
  - destruct (check_once_change cfg e d w k Hi Hk Hc)
      as (code & lat & det & r & t & -> & Ht & _).
    unfold events, final, cached. cbn [fst snd state_cache].
    rewrite lookup_insert_eq. split; [| reflexivity].
    change (count is_notify (?a :: ?b :: t)) with (S (count is_notify t)).
    rewrite (delivery_no_notify t Ht). reflexivity.
  - destruct (check_once_same cfg e d w k Hi Hk Hc) as (code & lat & det & ->).
    unfold events, final. cbn [fst snd]. split; [reflexivity |].
    unfold cached in *. exact Hc.
Qed.

(** C10: a cycle whose observed status equals the status cached for the
    target's URL leaves the state cache as it is (no entry written, added
    or removed); the cache differs after a cycle only if that cycle saw a
    change (and then it called [notify]); and no cycle touches the entry
    of another URL. *)
Theorem state_cache_frame cfg e d w k :
  py_hash (url_of d) = inr k ->
  let run := check_once cfg e (PDict d) w in
  (cached w k = Some (observed e) -> state_cache (final run) = state_cache w)
  /\ (state_cache (final run) <> state_cache w ->
      cached w k <> Some (observed e) /\ count is_notify (events run) = 1%nat)
  /\ (forall k', k' <> k -> state_cache (final run) !! k' = state_cache w !! k').
Proof.
  intros Hk run.
  destruct (sqlite_insert e) as [x |] eqn:Hi.
  { subst run. rewrite (check_once_append_raises cfg e d w x Hi).
    unfold final. cbn [fst snd]. repeat split; try done. }
  destruct (decide (cached w k = Some (observed e))) as [Hc | Hc].
  - destruct (check_once_same cfg e d w k Hi Hk Hc) as (code & lat & det & Hrun).
    subst run. rewrite Hrun. unfold final. cbn [fst snd state_cache].
    repeat split; try done.
  - destruct (cycle_notifications cfg e d w k Hi Hk) as [Hn _].
    rewrite bool_decide_eq_true_2 in Hn by exact Hc.
    destruct (check_once_change cfg e d w k Hi Hk Hc)
      as (code & lat & det & r & t & Hrun & _).
    subst run. split; [done |]. split; [auto |].
    intros k' Hne. rewrite Hrun. unfold final. cbn [fst snd state_cache].
    apply lookup_insert_ne. auto.
Qed.

(** ** The polling loop *)

Lemma check_once_completes cfg e d w k :
  completes e ->
  py_hash (url_of d) = inr k ->
  exists w' t,
    check_once cfg e (PDict d) w = (Ret tt, w', t)
    /\ sleeps t = []
    /\ count is_probe t = 1%nat
    /\ count is_notify t
       = (if bool_decide (cached w k <> Some (observed e)) then 1 else 0)%nat
    /\ cached w' k = Some (observed e)
    /\ length (db w') = S (length (db w)).
Proof.
  intros (Hi & Hp & Hb) Hk.
  destruct (cycle_notifications cfg e d w k Hi Hk) as [Hn Hc'].
  revert Hn Hc'. case_bool_decide as Hc; intros Hn Hc'.
  - destruct (check_once_change cfg e d w k Hi Hk Hc)
      as (code & lat & det & r & t & Hrun & Ht & Hok).
    rewrite (Hok Hp Hb) in Hrun. rewrite Hrun in Hn, Hc' |- *.
    do 2 eexists. split; [reflexivity |].
    split; [cbn; apply delivery_no_sleep, Ht |].
    split; [| split; [exact Hn | split; [exact Hc' |]]].
    + change (count is_probe (?a :: ?b :: t)) with (S (count is_probe t)).
      rewrite (delivery_no_probe t Ht). reflexivity.
    + cbn [db]. unfold saved, insert_row. rewrite length_app. cbn. lia.
  - destruct (check_once_same cfg e d w k Hi Hk Hc) as (code & lat & det & Hrun).
    rewrite Hrun in Hn, Hc' |- *.
    do 2 eexists. split; [reflexivity |].
    repeat split; auto.
    cbn [db]. unfold saved, insert_row. rewrite length_app. cbn. lia.
Qed.

Lemma sleep_limit_pos : 0 < sleep_limit.
Proof. reflexivity. Qed.

(** A delay that a float can hold is slept. *)
Lemma sleep_run n w : n < sleep_limit -> sleep (PInt n) w = (Ret tt, w, [EvSleep n]).
Proof.
  intros Hn. unfold sleep.
  destruct (Z.leb_spec n 0); [reflexivity |].
  destruct (Z.ltb_spec n sleep_limit); [reflexivity | lia].
Qed.

Lemma sleep_overflow n w :
  sleep_limit <= n ->
  sleep (PInt n) w = (Raise (Exn OverflowError "int too large to convert to float"), w, []).
Proof.
  intros Hn. pose proof sleep_limit_pos. unfold sleep.
  destruct (Z.leb_spec n 0); [lia |].
  destruct (Z.ltb_spec n sleep_limit); [lia | reflexivity].
Qed.

(** The loop over cycles that all complete. *)
Lemma polling_completes cfg d n k es : forall w,
  n < sleep_limit ->
  py_hash (url_of d) = inr k ->
  Forall completes es ->
  exists w' t,
    polling cfg (PDict d) (PInt n) es w = (Ret tt, w', t)
    /\ sleeps t = replicate (length es) n
    /\ count is_probe t = length es
    /\ count is_notify t = transitions (cached w k) (map observed es)
    /\ length (db w') = (length (db w) + length es)%nat.
Proof.
  induction es as [| e es IH]; intros w Hlim Hk Hes.
  - exists w, []. cbn. repeat split; auto.
  - apply Forall_cons in Hes as [He Hes].
    destruct (check_once_completes cfg e d w k He Hk)
      as (w1 & t1 & Hrun & Hs1 & Hp1 & Hn1 & Hc1 & Hd1).
    destruct (IH w1 Hlim Hk Hes) as (w' & t & Hrest & Hs & Hp & Hn & Hd).
    exists w', (t1 ++ EvSleep n :: t).
    cbn [polling]. rewrite (bind_ret _ _ w tt w1 t1 Hrun).
    rewrite bind_run, (sleep_run n w1 Hlim), Hrest. cbn [app].
    split; [reflexivity |].
    rewrite sleeps_app, !count_app, Hs1, Hp1, Hn1. cbn [length map transitions].
    rewrite Hc1 in Hn.
    change (sleeps (EvSleep n :: t)) with (n :: sleeps t).
    change (count is_probe (EvSleep n :: t)) with (count is_probe t).
    change (count is_notify (EvSleep n :: t)) with (count is_notify t).
    rewrite Hs, Hp, Hn, Hd, Hd1. repeat split; auto; lia.
Qed.


Lemma polling_app cfg t i es1 es2 : forall w,
  polling cfg t i (es1 ++ es2) w
  = match polling cfg t i es1 w with
    | (Ret _, w1, t1) =>
        let '(r, w2, t2) := polling cfg t i es2 w1 in (r, w2, t1 ++ t2)
    | (Raise x, w1, t1) => (Raise x, w1, t1)
    end.
Proof.
  induction es1 as [| e es1 IH]; intros w.
  - cbn. destruct (polling cfg t i es2 w) as [[r w2] t2]. reflexivity.
  - cbn [app polling]. rewrite !bind_run.
    destruct (check_once cfg e t w) as [[[[] | x] w1] t1]; [| reflexivity].
    rewrite !bind_run.
    destruct (sleep i w1) as [[[[] | x] w2] t2]; [| reflexivity].
    rewrite IH.
    destruct (polling cfg t i es1 w2) as [[[[] | x] w3] t3]; [| reflexivity].
    destruct (polling cfg t i es2 w3) as [[r w4] t4].
    rewrite !app_assoc. reflexivity.
Qed.

(** The worker of a target whose append raises in the cycle after [es]. *)
Lemma polling_append_raises cfg d n k es e es' x w :
  n < sleep_limit ->
  py_hash (url_of d) = inr k ->
  Forall completes es ->
  sqlite_insert e = Some x ->
  exists w' t,
    polling cfg (PDict d) (PInt n) (es ++ e :: es') w = (Raise x, w', t)
    /\ sleeps t = replicate (length es) n
    /\ count is_probe t = S (length es)
    /\ length (db w') = (length (db w) + length es)%nat.
Proof.
  intros Hlim Hk Hes Hx.
  destruct (polling_completes cfg d n k es w Hlim Hk Hes)
    as (w1 & t1 & Hrun & Hs & Hp & _ & Hd).
  rewrite polling_app, Hrun. cbn [polling].
  rewrite (bind_raise _ _ w1 x w1 _ (check_once_append_raises cfg e d w1 x Hx)).
  do 2 eexists. split; [reflexivity |].
  rewrite sleeps_app, count_app, Hs, Hp.
  change (sleeps [EvGet (url_of d) (TIMEOUT cfg)]) with (@nil Z).
  change (count is_probe [EvGet (url_of d) (TIMEOUT cfg)]) with 1%nat.
  rewrite app_nil_r. repeat split; auto; lia.
Qed.

(** C3, as the code has it: probe failures (the GET raises or answers 5xx),
    failures of the SMTP session and Telegram answers other than 200 are
    absorbed.  In every sequence of cycles whose appends return, whose
    POSTs to Telegram do not raise and whose mail messages can be built,
    whatever else fails, the worker of a target with an integer interval
    that a float can hold runs every cycle and is still looping at the
    end, with one sleep of exactly that interval after each cycle (no
    backoff).  A history append that raises is not absorbed: the worker
    ends with that exception in that cycle, and neither sleeps nor probes
    again. *)
Theorem polling_absorbs_probe_and_mail_failures cfg d k n es w :
  py_hash (url_of d) = inr k ->
  py_get (PDict d) "interval" (PInt (CHECK_INTERVAL cfg)) = inr (PInt n) ->
  n < sleep_limit ->
  Forall completes es ->
  (let run := periodic_worker cfg (PDict d) es w in
   result run = Ret tt
   /\ sleeps (events run) = replicate (length es) n
   /\ count is_probe (events run) = length es)
  /\ (forall e x es',
        sqlite_insert e = Some x ->
        let run := periodic_worker cfg (PDict d) (es ++ e :: es') w in
        result run = Raise x
        /\ sleeps (events run) = replicate (length es) n
        /\ count is_probe (events run) = S (length es)).
Proof.
  intros Hk Hn Hlim Hes. unfold periodic_worker. rewrite Hn. split.
  - destruct (polling_completes cfg d n k es w Hlim Hk Hes)
      as (w' & t & Hrun & Hs & Hp & _).
    cbn zeta. rewrite bind_run. cbn [lift ret]. rewrite Hrun.
    unfold result, events. cbn [fst snd app]. auto.
  - intros e x es' Hx.
    destruct (polling_append_raises cfg d n k es e es' x w Hlim Hk Hes Hx)
      as (w' & t & Hrun & Hs & Hp & _).
    cbn zeta. rewrite bind_run. cbn [lift ret]. rewrite Hrun.
    unfold result, events. cbn [fst snd app]. auto.
Qed.

(** C4, as the code has it: a history append that raises ends the cycle at
    once.  The exception leaves [check_once] after the GET: no row is
    written, the cache is neither read nor written, [notify] is not
    called, whatever status the probe observed; and the exception ends the
    target's worker, so no next cycle starts. *)
Theorem append_failure_aborts_cycle cfg e d w x :
  sqlite_insert e = Some x ->
  check_once cfg e (PDict d) w = (Raise x, w, [EvGet (url_of d) (TIMEOUT cfg)])
  /\ count is_notify (events (check_once cfg e (PDict d) w)) = 0%nat
  /\ forall es,
       periodic_worker cfg (PDict d) (e :: es) w
       = (Raise x, w, [EvGet (url_of d) (TIMEOUT cfg)]).
Proof.
  intros Hx. pose proof (check_once_append_raises cfg e d w x Hx) as Hrun.
  split; [exact Hrun |]. split; [rewrite Hrun; reflexivity |].
  intros es. unfold periodic_worker. cbn [py_get lift].
  rewrite bind_run. cbn [ret polling].
  rewrite (bind_raise _ _ w x w _ Hrun). reflexivity.
Qed.

(** ** Start-up: fatal or serving *)

Lemma seed_registrable ts : forall w,
  result (seed ts w) = Ret tt <-> forallb registrable ts = true.
Proof.
  induction ts as [| t0 rest IH]; intros w; [done |].
  cbn [seed forallb]. unfold registrable at 1. rewrite bind_run.
  destruct (py_getitem t0 "url") as [x | u]; cbn [lift raise ret]; [done |].
  rewrite bind_run.
  destruct (py_hash u) as [x | k0] eqn:Hk.
  - unfold cache_set. rewrite Hk. done.
  - rewrite (cache_set_run u k0 None w Hk).
    specialize (IH {| state_cache := <[k0:=None]> (state_cache w); db := db w |}).
    destruct (seed rest _) as [[r w1] t1]. exact IH.
Qed.

Lemma init_app_returns s w :
  (exists ts, acceptable s ts) <-> result (init_app s w) = Ret ["/"].
Proof.
  unfold acceptable, targets_of, init_app, init_db, read_targets.
  rewrite bind_run.
  destruct (sqlite_create s) as [x |]; cbn [may_raise raise ret].
  { split; [intros (ts & H & _) | intros H]; discriminate. }
  rewrite bind_run, bind_run.
  destruct (targets_file s) as [x | x | data]; cbn [raise ret mret M_ret];
    try (split; [intros (ts & _ & d & H & _) | intros H]; discriminate).
  destruct data as [| | | | d]; cbn [py_get lift raise ret];
    try (split; [intros (ts & _ & d & H & _) | intros H]; discriminate).
  rewrite bind_run.
  destruct (py_iter _) as [x | ts] eqn:Hts; cbn [lift raise ret].
  { split; [intros (ts & _ & d' & H & H' & _) | intros H]; [| discriminate].
    injection H as <-. congruence. }
  rewrite bind_run. pose proof (seed_registrable ts w) as Hseed.
  destruct (seed ts w) as [[r w'] t] eqn:Hs. unfold result in Hseed. cbn [fst] in Hseed.
  destruct r as [[] | x].
  - rewrite bind_run. cbn [lift ret]. rewrite bind_run, start_run. cbn.
    split; [reflexivity |]. intros _. exists ts. split; [reflexivity |].
    exists d. split; [reflexivity |]. split; [exact Hts | by apply Hseed].
  - split; [| discriminate].
    intros (ts' & _ & d' & H & H' & Hall). injection H as <-.
    rewrite Hts in H'. injection H' as <-. apply Hseed in Hall. discriminate.
Qed.

Lemma acceptable_unique s ts ts' : acceptable s ts -> acceptable s ts' -> ts = ts'.
Proof.
  intros (_ & d & Hd & Hts & _) (_ & d' & Hd' & Hts' & _).
  rewrite Hd in Hd'. injection Hd' as <-. congruence.
Qed.

Lemma main_run cfg s w :
  (exists x w', main cfg s w = (Raise x, w', [])
                /\ ~ exists ts, acceptable s ts)
  \/ (exists ts w', main cfg s w
                    = (Ret tt, w', map EvCreateTask ts ++ [EvRunApp ["/"] "0.0.0.0" (PORT cfg)])
                    /\ acceptable s ts).
Proof.
  pose proof (init_app_returns s w) as Hiff. unfold main. rewrite bind_run.
  destruct (init_app_run s w)
    as [(x & w' & Hrun & _) | (ts & w' & Hrun & _ & Hc & (d & Hd & Hts) & _)];
    rewrite Hrun in Hiff |- *; unfold result in Hiff; cbn [fst] in Hiff.
  - left. exists x, w'. split; [reflexivity |].
    intros H. apply Hiff in H. discriminate.
  - right. exists ts, w'. split; [reflexivity |].
    destruct Hiff as [_ Hiff]. destruct (Hiff eq_refl) as (ts' & Hacc).
    assert (ts' = ts) as ->; [| exact Hacc].
    destruct Hacc as (_ & d' & Hd' & Hts' & _).
    rewrite Hd in Hd'. injection Hd' as <-. unfold targets_of in Hts'. congruence.
Qed.

(** C7, as the code has it: start-up is fatal exactly when the table
    cannot be created, the target file cannot be opened or parsed, what
    it loads is not a mapping, its [targets] (an empty list when the key is
    missing) cannot be iterated, or an entry has no hashable [url]; then
    [init_app] raises, no task is created and nothing is served.  A file
    that cannot be opened or parsed is always fatal.  A target list with
    zero targets is accepted: the dashboard is served, with no polling
    loop. *)
Theorem startup_fatal_or_serving cfg s w :
  let run := main cfg s w in
  ((exists ts, acceptable s ts) <-> result run = Ret tt)
  /\ (forall ts, acceptable s ts ->
        events run = map EvCreateTask ts ++ [EvRunApp ["/"] "0.0.0.0" (PORT cfg)])
  /\ ((~ exists ts, acceptable s ts) ->
        (exists x, result run = Raise x) /\ events run = [])
  /\ (forall x, targets_file s = OpenRaises x \/ targets_file s = LoadRaises x ->
        (exists x', result run = Raise x') /\ events run = [])
  /\ (forall d, sqlite_create s = None -> targets_file s = Loaded (PDict d) ->
        py_iter (targets_of d) = inr [] ->
        result run = Ret tt /\ events run = [EvRunApp ["/"] "0.0.0.0" (PORT cfg)]).
Proof.
  intros run.
  assert (Hfatal : (~ exists ts, acceptable s ts) ->
                   (exists x, result run = Raise x) /\ events run = []).
  { intros Hno. subst run.
    destruct (main_run cfg s w) as [(x & w' & -> & _) | (ts & w' & _ & Hacc)].
    - split; [exists x |]; reflexivity.
    - destruct Hno. eauto. }
  assert (Hserve : forall ts, acceptable s ts ->
            result run = Ret tt
            /\ events run = map EvCreateTask ts ++ [EvRunApp ["/"] "0.0.0.0" (PORT cfg)]).
  { intros ts Hacc. subst run.
    destruct (main_run cfg s w) as [(x & w' & _ & Hno) | (ts' & w' & -> & Hacc')].
    - destruct Hno. eauto.
    - rewrite (acceptable_unique s ts ts' Hacc Hacc'). split; reflexivity. }
  split; [| split; [| split; [exact Hfatal | split]]].
  - split.
    + intros (ts & Hacc). apply (Hserve ts Hacc).
    + intros Hret. subst run.
      destruct (main_run cfg s w) as [(x & w' & Hrun & _) | (ts & w' & _ & Hacc)];
        [rewrite Hrun in Hret; discriminate | eauto].
  - intros ts Hacc. apply (Hserve ts Hacc).
  - intros x Hx. apply Hfatal. intros (ts & _ & d & Hd & _).
    destruct Hx as [Hx | Hx]; rewrite Hx in Hd; discriminate.
  - intros d Hc Hd Hts. apply (Hserve []).
    split; [exact Hc |]. exists d. repeat split; assumption.
Qed.

(** ** The history table and the dashboard *)

Lemma largest_above i ids :
  i <= foldr Z.max i ids /\ Forall (fun j => j <= foldr Z.max i ids) ids.
Proof.
  induction ids as [| j ids [IH1 IH2]]; cbn [foldr]; [split; [lia | constructor] |].
  split; [lia |]. constructor; [lia |].
  eapply Forall_impl; [exact IH2 |]. cbn. intros; lia.
Qed.

Lemma largest_below b i ids :
  i <= b -> Forall (fun j => j <= b) ids -> foldr Z.max i ids <= b.
Proof. intros Hi. induction 1; cbn [foldr]; lia. Qed.

(** Below the ceiling the next id is above every id of the table, and it
    leaves the room it does not take. *)
Lemma next_rowid_room random n t :
  has_room (S n) t ->
  Forall (fun r => checks.id r < next_rowid random t) t
  /\ next_rowid random t + Z.of_nat n <= max_rowid.
Proof.
  intros [Hn Hall]. unfold next_rowid.
  destruct t as [| a t]; cbn [map].
  { split; [constructor | lia]. }
  apply Forall_cons in Hall as [Ha Hall].
  destruct (largest_above (checks.id a) (map checks.id t)) as [H1 H2].
  assert (Hb : foldr Z.max (checks.id a) (map checks.id t) + Z.of_nat (S n) <= max_rowid).
  { assert (foldr Z.max (checks.id a) (map checks.id t) <= max_rowid - Z.of_nat (S n)); [| lia].
    apply largest_below; [lia |]. apply Forall_forall. intros j Hj.
    apply list_elem_of_fmap in Hj as (r & -> & Hr).
    rewrite Forall_forall in Hall. specialize (Hall r Hr). cbn in Hall. lia. }
  destruct (Z.ltb_spec (foldr Z.max (checks.id a) (map checks.id t)) max_rowid); [| lia].
  split; [| lia]. constructor; [lia |].
  apply Forall_forall. intros r Hr. rewrite Forall_forall in H2.
  assert (Hj : checks.id r ∈ map checks.id t) by (apply list_elem_of_fmap; eauto).
  specialize (H2 _ Hj). cbn in H2. lia.
Qed.

Lemma has_room_less n t : has_room (S n) t -> has_room n t.
Proof.
  intros [Hn Hall]. split; [lia |].
  eapply Forall_impl; [exact Hall |]. cbn. intros; lia.
Qed.

Lemma has_room_insert random n t name url st code latency ts :
  has_room (S n) t -> has_room n (insert_row random t name url st code latency ts).
Proof.
  intros H. destruct (next_rowid_room random n t H) as [_ Hnew].
  destruct (has_room_less n t H) as [Hn Hall]. split; [exact Hn |].
  unfold insert_row. apply Forall_app. split; [exact Hall |].
  constructor; [exact Hnew | constructor].
Qed.




(** The times of the items are formatted without a trace; the first one
    that cannot be formatted ends the loop. *)
Lemma format_times_run q items w :
  exists r, format_times q items w = (r, w, [])
    /\ (Forall (fun it => localtime q (snd it) = None) items -> r = Ret tt).
Proof.
  induction items as [| [[[[[name url] st] code] latency] ts] items (r & IH & Hok)].
  { exists (Ret tt). split; [reflexivity | auto]. }
  cbn [format_times]. rewrite bind_run.
  destruct (localtime q ts) as [x |] eqn:Hts; cbn [may_raise raise ret].
  - exists (Raise x). split; [reflexivity |].
    intros H. apply Forall_cons in H as [H _]. cbn in H. congruence.
  - rewrite IH. exists r. split; [reflexivity |].
    intros H. apply Forall_cons in H as [_ H]. auto.
Qed.

(** The dashboard changes nothing and leaves no trace, whatever it answers. *)
Lemma handle_index_run q w :
  exists r, handle_index q w = (r, w, [])
    /\ (forall x, sqlite_select q = Some x -> r = Raise x)
    /\ (sqlite_select q = None ->
        Forall (fun it => localtime q (snd it) = None) (select_recent (db w)) ->
        r = Ret (render (select_recent (db w)))).
Proof.
  unfold handle_index. rewrite bind_run.
  destruct (sqlite_select q) as [x |]; cbn [may_raise raise ret].
  { exists (Raise x). split; [reflexivity |]. split; [congruence | discriminate]. }
  rewrite bind_run. cbn [read_world]. rewrite bind_run.
  destruct (format_times_run q (select_recent (db w)) w) as ([[] | x] & -> & Hok).
  - eexists. split; [reflexivity |]. split; [discriminate | reflexivity].
  - exists (Raise x). split; [reflexivity |]. split; [discriminate |].
    intros _ H. specialize (Hok H). discriminate.
Qed.


(** ** Where the code departs from the claims *)

(** C3, counterexample: the first cycle's history append raises; the
    worker ends there, without a sleep and without the second cycle. *)
Lemma append_failure_ends_polling :
  sqlite_insert append_fails <> None
  /\ ~ keeps_polling cfg_both (PDict api) [append_fails; all_well] seeded
  /\ result (periodic_worker cfg_both (PDict api) [append_fails; all_well] seeded)
     = Raise (Exn SqliteError "disk I/O error")
  /\ sleeps (events (periodic_worker cfg_both (PDict api) [append_fails; all_well] seeded)) = []
  /\ count is_probe (events (periodic_worker cfg_both (PDict api) [append_fails; all_well] seeded)) = 1%nat.
Proof.
  split; [discriminate |]. split; [| split; [| split]]; try reflexivity.
  intros [H _]. discriminate H.
Qed.

(** C4, counterexample: the status changes (Unknown to UP) in a cycle
    whose append raises; [notify] is not called and the worker ends. *)
Lemma append_failure_blocks_notification :
  sqlite_insert append_fails <> None
  /\ cached seeded api_key <> Some (observed append_fails)
  /\ count is_notify (events (check_once cfg_both append_fails (PDict api) seeded)) = 0%nat
  /\ ~ append_failure_tolerated cfg_both append_fails api seeded api_key.
Proof.
  assert (Hc : cached seeded api_key <> Some (observed append_fails)).
  { vm_compute. discriminate. }
  split; [discriminate |]. split; [exact Hc |]. split; [reflexivity |].
  intros [H _]. specialize (H Hc). discriminate H.
Qed.

(** C5, at the failing input: both transports are configured and the POST
    to Telegram raises.  The exception leaves [notify], and the mail is
    never attempted. *)
Lemma telegram_exception_escapes_notify :
  let run := notify cfg_both telegram_unreachable (PStr "api")
               (PStr "https://example.com/health") DOWN "timeout" seeded in
  result run = Raise (Exn ClientError "Cannot connect to host api.telegram.org:443")
  /\ count is_telegram (events run) = 1%nat
  /\ count is_smtp (events run) = 0%nat
  /\ ~ transports_isolated cfg_both telegram_unreachable (PStr "api")
         (PStr "https://example.com/health") DOWN "timeout" seeded.
Proof.
  cbn zeta. split; [reflexivity |]. split; [reflexivity |]. split; [reflexivity |].
  intros [H _]. discriminate H.
Qed.

(** C6, counterexample: the GET times out.  The exception of a timeout has
    no message, so the detail of the DOWN outcome is the empty string: it
    describes nothing. *)
Lemma timeout_detail_is_empty :
  http_get timed_out = GetRaises (Exn TimeoutError "")
  /\ probe cfg_both timed_out (url_of api) fresh
     = (Ret (DOWN, None, None, ""), fresh, [EvGet (url_of api) 10])
  /\ ~ describes_the_failure "".
Proof.
  split; [reflexivity |]. split; [reflexivity |]. intros H. apply H. reflexivity.
Qed.

(** C7, counterexample: the target file holds an empty list of targets;
    start-up succeeds and the dashboard is served. *)
Lemma zero_targets_are_served :
  ~ refuses_to_start cfg_both no_targets fresh
  /\ main cfg_both no_targets fresh
     = (Ret tt, fresh, [EvRunApp ["/"] "0.0.0.0" 8080]).
Proof.
  split; [| reflexivity]. intros [[x H] _]. discriminate H.
Qed.

(** ** The theorems at the scenarios *)

(** [api] answers 200, then times out twice: UP and DOWN are notified (the
    detail of a timeout is empty), the second DOWN is not; three rows are
    written. *)
Example up_down_down :
  let run := periodic_worker cfg_both (PDict api) [all_well; timed_out; timed_out] seeded in
  result run = Ret tt
  /\ filter (fun ev => is_notify ev = true) (events run)
     = [EvNotify (PStr "api") (PStr "https://example.com/health") UP "HTTP 200 in 50ms";
        EvNotify (PStr "api") (PStr "https://example.com/health") DOWN ""]
  /\ map checks.id (db (final run)) = [1; 2; 3]
  /\ cached (final run) api_key = Some DOWN.
Proof. vm_compute. repeat split; reflexivity. Qed.

(** A 404 is UP. *)
Lemma probe_status_classification_witness :
  exists code latency details,
    probe cfg_both not_found (url_of api) fresh
    = (Ret (UP, code, latency, details), fresh, [EvGet (url_of api) 10]).
Proof.
  destruct (probe_status_classification cfg_both not_found (url_of api) fresh)
    as (st & code & latency & details & Hrun & _ & _ & H404).
  rewrite (H404 20 eq_refl) in Hrun. eauto.
Defined.

(** A refused connection becomes a DOWN outcome without code and latency,
    whose detail is the text of the exception. *)
Lemma probe_never_raises_witness :
  exists st code latency,
    result (probe cfg_both refused (url_of api) fresh)
    = Ret (st, code, latency, "Cannot connect to host example.com:443")
    /\ st = DOWN /\ code = None /\ latency = None.
Proof.
  destruct (probe_never_raises cfg_both refused (url_of api) fresh)
    as (st & code & latency & details & Hrun & _ & Hfail & _).
  destruct (Hfail _ eq_refl) as (Hst & Hd & Hc & Hl).
  rewrite Hd in Hrun. eauto 10.
Defined.


(** Three cycles that run to their end, the second full of failures. *)
Lemma three_cycles_complete : Forall completes [all_well; much_fails; all_well].
Proof. repeat constructor; intros x H; discriminate H. Defined.

(** The worker of [api] survives them and sleeps 30 seconds each time. *)
Lemma polling_absorbs_probe_and_mail_failures_witness :
  py_hash (url_of api) = inr api_key
  /\ py_get (PDict api) "interval" (PInt (CHECK_INTERVAL cfg_both)) = inr (PInt 30)
  /\ 30 < sleep_limit
  /\ Forall completes [all_well; much_fails; all_well]
  /\ result (periodic_worker cfg_both (PDict api) [all_well; much_fails; all_well] seeded)
     = Ret tt
  /\ sleeps (events (periodic_worker cfg_both (PDict api)
                       [all_well; much_fails; all_well] seeded))
     = [30; 30; 30].
Proof.
  split; [reflexivity |]. split; [reflexivity |]. split; [reflexivity |].
  split; [exact three_cycles_complete |].
  destruct (polling_absorbs_probe_and_mail_failures cfg_both api api_key 30
              [all_well; much_fails; all_well] seeded
              eq_refl eq_refl eq_refl three_cycles_complete) as [(Hr & Hs & _) _].
  split; [exact Hr | exact Hs].
Defined.

(** A disk error during the append leaves [check_once] after the GET. *)
Lemma append_failure_aborts_cycle_witness :
  sqlite_insert append_fails = Some (Exn SqliteError "disk I/O error")
  /\ check_once cfg_both append_fails (PDict api) seeded
     = (Raise (Exn SqliteError "disk I/O error"), seeded,
        [EvGet (PStr "https://example.com/health") 10]).
Proof.
  split; [reflexivity |].
  exact (proj1 (append_failure_aborts_cycle cfg_both append_fails api seeded _ eq_refl)).
Defined.

(** With one well-formed target, one task is created and the page served. *)
Lemma startup_fatal_or_serving_witness :
  acceptable one_target [PDict api]
  /\ events (main cfg_both one_target fresh)
     = [EvCreateTask (PDict api); EvRunApp ["/"] "0.0.0.0" 8080].
Proof.
  assert (H : acceptable one_target [PDict api]).
  { split; [reflexivity |]. exists [("targets", PList [PDict api])].
    repeat split; reflexivity. }
  split; [exact H |].
  destruct (startup_fatal_or_serving cfg_both one_target fresh) as (_ & Hev & _).
  exact (Hev _ H).
Defined.

(** Without any configuration both transports do nothing. *)
Lemma unconfigured_transport_is_noop_witness :
  TELEGRAM_TOKEN cfg_none = "" /\ SMTP_HOST cfg_none = ""
  /\ send_telegram cfg_none all_well [Lit "down"] seeded = (Ret tt, seeded, [])
  /\ send_email_sync cfg_none all_well [Lit "Monitor"] [Lit "down"] seeded
     = (Ret tt, seeded, []).
Proof.
  split; [reflexivity |]. split; [reflexivity |].
  destruct (unconfigured_transport_is_noop cfg_none all_well seeded) as [Ht Hm].
  split; [exact (Ht (or_introl eq_refl) _) | exact (Hm (or_introl eq_refl) _ _)].
Defined.

(** [api] is cached UP: an UP cycle leaves the cache alone, and no cycle
    touches other keys. *)
Lemma state_cache_frame_witness :
  py_hash (url_of api) = inr api_key
  /\ cached known_up api_key = Some (observed all_well)
  /\ state_cache (final (check_once cfg_both all_well (PDict api) known_up))
     = state_cache known_up
  /\ forall k', k' <> api_key ->
       state_cache (final (check_once cfg_both much_fails (PDict api) known_up)) !! k'
       = state_cache known_up !! k'.
Proof.
  assert (Hc : cached known_up api_key = Some (observed all_well)) by reflexivity.
  split; [reflexivity |]. split; [exact Hc |]. split.
  - destruct (state_cache_frame cfg_both all_well api known_up api_key eq_refl)
      as (H & _).
    exact (H Hc).
  - destruct (state_cache_frame cfg_both much_fails api known_up api_key eq_refl)
      as (_ & _ & H).
    exact H.
Defined.

(** * Further properties of the code *)

(** ** One cycle, in full *)

Lemma probe_run cfg e url w :
  probe cfg e url w
  = (Ret (observed e, code_of e, latency_of e, details_of e), w,
     [EvGet url (TIMEOUT cfg)]).
Proof.
  unfold probe, observed, code_of, latency_of, details_of, try_except. cbn.
  destruct (http_get e) as [c ms | x]; reflexivity.
Qed.

(** [target.get] exists on a dict only. *)
Lemma check_once_not_dict cfg e t w :
  (forall d, t <> PDict d) ->
  exists x, check_once cfg e t w = (Raise x, w, []).
Proof.
  intros Ht. unfold check_once.
  destruct t as [| s | n | l | d]; try (eexists; reflexivity).
  destruct (Ht d eq_refl).
Qed.

Lemma check_once_unhashable cfg e d w x :
  sqlite_insert e = None ->
  py_hash (url_of d) = inl x ->
  check_once cfg e (PDict d) w
  = (Raise x,
     {| state_cache := state_cache w;
        db := saved e d w (code_of e) (latency_of e) |},
     [EvGet (url_of d) (TIMEOUT cfg)]).
Proof.
  intros Hi Hk. unfold check_once. cbn [py_get lift].
  rewrite !(bind_ret _ _ w _ w []) by reflexivity. cbn [app].
  fold (url_of d). fold (name_of d).
  rewrite (bind_ret _ _ w _ w _ (probe_run cfg e (url_of d) w)).
  rewrite bind_run, save_run, Hi.
  rewrite bind_run. unfold cache_get. rewrite Hk. reflexivity.
Qed.

(** Every way a cycle of a dict target can go. *)
Lemma check_once_dict cfg e d w :
  let get := EvGet (url_of d) (TIMEOUT cfg) in
  let t1 := saved e d w (code_of e) (latency_of e) in
  (exists x, sqlite_insert e = Some x
             /\ check_once cfg e (PDict d) w = (Raise x, w, [get]))
  \/ (exists x, sqlite_insert e = None /\ py_hash (url_of d) = inl x
                /\ check_once cfg e (PDict d) w
                   = (Raise x, {| state_cache := state_cache w; db := t1 |}, [get]))
  \/ (exists k, sqlite_insert e = None /\ py_hash (url_of d) = inr k
                /\ cached w k = Some (observed e)
                /\ check_once cfg e (PDict d) w
                   = (Ret tt, {| state_cache := state_cache w; db := t1 |},
                      [get; EvLog INFO "%s %s -> %s (%s)"
                              [Fmt (name_of d); Fmt (url_of d);
                               Lit (status_str (observed e)); Lit (details_of e)]]))
  \/ (exists k r t, sqlite_insert e = None /\ py_hash (url_of d) = inr k
                /\ cached w k <> Some (observed e)
                /\ check_once cfg e (PDict d) w
                   = (r, {| state_cache := <[k := Some (observed e)]> (state_cache w);
                            db := t1 |},
                      get :: EvNotify (name_of d) (url_of d) (observed e) (details_of e) :: t)
                /\ delivery t
                /\ ((forall x, telegram_post e <> PostRaises x) ->
                    email_build e = None -> r = Ret tt)).
Proof.
  intros get t1.
  destruct (sqlite_insert e) as [x |] eqn:Hi.
  { left. exists x. split; [reflexivity |]. apply check_once_append_raises, Hi. }
  right. destruct (py_hash (url_of d)) as [x | k] eqn:Hk.
  { left. exists x. repeat split. apply check_once_unhashable; assumption. }
  right. destruct (decide (cached w k = Some (observed e))) as [Hc | Hc].
  - left. exists k. repeat split; try assumption.
    unfold check_once. cbn [py_get lift].
    rewrite !(bind_ret _ _ w _ w []) by reflexivity. cbn [app].
    fold (url_of d). fold (name_of d).
    rewrite (bind_ret _ _ w _ w _ (probe_run cfg e (url_of d) w)).
    rewrite bind_run, save_run, Hi.
    rewrite bind_run, (cache_get_run _ k) by exact Hk.
    unfold cached in *. cbn [state_cache]. rewrite Hc.
    rewrite bool_decide_eq_false_2 by (intros H; apply H; reflexivity).
    reflexivity.
  - right. unfold check_once. cbn [py_get lift].
    rewrite !(bind_ret _ _ w _ w []) by reflexivity. cbn [app].
    fold (url_of d). fold (name_of d).
    rewrite (bind_ret _ _ w _ w _ (probe_run cfg e (url_of d) w)).
    rewrite bind_run, save_run, Hi.
    rewrite bind_run, (cache_get_run _ k) by exact Hk.
    unfold cached in *. cbn [state_cache].
    rewrite bool_decide_eq_true_2 by exact Hc.
    rewrite bind_run, bind_run, (cache_set_run _ k) by exact Hk.
    cbn [state_cache db]. fold t1.
    match goal with |- context [notify cfg e ?n ?u ?s ?dt ?w'] =>
      destruct (notify_result cfg e n u s dt w') as (r & t & Hn & Hd & Hok);
      rewrite Hn
    end.
    destruct r as [[] | x].
    + exists k, (Ret tt), (t ++ [EvLog INFO "%s %s -> %s (%s)"
        [Fmt (name_of d); Fmt (url_of d); Lit (status_str (observed e));
         Lit (details_of e)]]).
      repeat split; try assumption; try reflexivity; auto.
      apply delivery_app; [exact Hd | repeat constructor].
    + exists k, (Raise x), t.
      repeat split; try assumption; try reflexivity; auto.
Qed.

(** What any cycle, of any target, does to the table and to the cache. *)
Lemma check_once_world cfg e t w :
  let w' := final (check_once cfg e t w) in
  (db w' = db w
   \/ exists d, t = PDict d /\ sqlite_insert e = None
                /\ db w' = saved e d w (code_of e) (latency_of e))
  /\ (state_cache w' = state_cache w
      \/ exists d k, t = PDict d /\ py_hash (url_of d) = inr k
                     /\ cached w k <> Some (observed e)
                     /\ state_cache w' = <[k := Some (observed e)]> (state_cache w)).
Proof.
  assert (Ht : (exists d, t = PDict d) \/ forall d, t <> PDict d)
    by (destruct t; eauto; right; discriminate).
  destruct Ht as [[d ->] | Ht]; cycle 1.
  { destruct (check_once_not_dict cfg e t w Ht) as [x ->].
    split; left; reflexivity. }
  destruct (check_once_dict cfg e d w)
    as [(x & Hi & ->) | [(x & Hi & Hk & ->) | [(k & Hi & Hk & Hc & ->)
       | (k & r & t & Hi & Hk & Hc & -> & _)]]];
    unfold final; cbn [fst snd db state_cache]; split; eauto 10.
Qed.

Lemma ids_increasing_insert random t name url st code latency ts :
  has_room 1 t ->
  ids_increasing t -> ids_increasing (insert_row random t name url st code latency ts).
Proof.
  unfold ids_increasing, insert_row. intros Hroom Ht. rewrite map_app.
  apply StronglySorted_app_2; [| exact Ht | repeat constructor].
  intros x1 x2 H1 H2. apply list_elem_of_singleton in H2 as ->. cbn.
  apply list_elem_of_fmap in H1 as (r & -> & Hr).
  destruct (next_rowid_room random 0 t Hroom) as [Hall _].
  rewrite Forall_forall in Hall. exact (Hall r Hr).
Qed.

(** What a cycle does to the table: at most one row more, and with room
    for it the ids stay in order. *)
Lemma check_once_table cfg e t w :
  exists new, db (final (check_once cfg e t w)) = db w ++ new
    /\ (length new <= 1)%nat
    /\ (forall n, has_room (S n) (db w) ->
        has_room n (db (final (check_once cfg e t w)))
        /\ (ids_increasing (db w) ->
            ids_increasing (db (final (check_once cfg e t w))))).
Proof.
  destruct (check_once_world cfg e t w) as [[H | (d & _ & _ & H)] _]; cbn zeta in H.
  - exists []. rewrite H, app_nil_r. split; [reflexivity |]. split; [cbn; lia |].
    intros n Hroom. split; [apply has_room_less, Hroom | auto].
  - rewrite H. unfold saved. eexists. split; [reflexivity |]. split; [cbn; lia |].
    intros n Hroom. split; [apply has_room_insert, Hroom |].
    apply ids_increasing_insert. clear H. revert Hroom.
    induction n as [| n IH]; [auto |]. intros Hroom. apply IH, has_room_less, Hroom.
Qed.


(** ** The loop, whatever happens *)

(** Sleeping changes nothing of the world. *)
Lemma sleep_world i w : exists r t, sleep i w = (r, w, t).
Proof.
  unfold sleep. destruct i as [| s | n | l | d]; try (do 2 eexists; reflexivity).
  destruct (n <=? 0); [do 2 eexists; reflexivity |].
  destruct (n <? sleep_limit); do 2 eexists; reflexivity.
Qed.

(** After the first cycle the loop either has ended or goes on from the
    world that cycle left. *)
Lemma polling_step cfg t i e es w :
  let w1 := final (check_once cfg e t w) in
  final (polling cfg t i (e :: es) w) = w1
  \/ final (polling cfg t i (e :: es) w) = final (polling cfg t i es w1).
Proof.
  cbn [polling]. rewrite bind_run.
  destruct (check_once cfg e t w) as [[[[] | x] w1] t1]; [| left; reflexivity].
  rewrite bind_run. unfold final. cbn [fst snd].
  destruct (sleep_world i w1) as ([[] | x] & t2 & ->); [| left; reflexivity].
  right. destruct (polling cfg t i es w1) as [[r w2] t3]. reflexivity.
Qed.

Lemma polling_invariant cfg t i (P : world -> Prop) :
  (forall e w, P w -> P (final (check_once cfg e t w))) ->
  forall es w, P w -> P (final (polling cfg t i es w)).
Proof.
  intros Hstep. induction es as [| e es IH]; intros w Hw; [exact Hw |].
  destruct (polling_step cfg t i e es w) as [-> | ->]; auto.
Qed.

(** X2: however a worker's cycles go (failed probes, failed appends,
    failed notifications, any target, any interval), the history only
    grows: the rows that were there stay as they are and at most one row
    is added per cycle.  When the table has room for the cycles' rows
    below the largest rowid and its ids are increasing in the order of the
    rows, they still are afterwards. *)
Theorem history_grows_in_id_order cfg t i es w :
  (exists new, db (final (polling cfg t i es w)) = db w ++ new
               /\ (length new <= length es)%nat)
  /\ (has_room (length es) (db w) ->
      ids_increasing (db w) ->
      ids_increasing (db (final (polling cfg t i es w)))).
Proof.
  split.
  - revert w. induction es as [| e es IH]; intros w.
    + exists []. rewrite app_nil_r. split; [reflexivity | cbn; lia].
    + destruct (check_once_table cfg e t w) as (new1 & H1 & Hl1 & _).
      destruct (polling_step cfg t i e es w) as [-> | ->].
      * exists new1. split; [exact H1 | cbn; lia].
      * destruct (IH (final (check_once cfg e t w))) as (new2 & H2 & Hl2).
        exists (new1 ++ new2). rewrite H2, H1, app_assoc, length_app.
        split; [reflexivity | cbn; lia].
  - revert w. induction es as [| e es IH]; intros w Hroom Hw; [exact Hw |].
    destruct (check_once_table cfg e t w) as (_ & _ & _ & Hstep).
    destruct (Hstep (length es) Hroom) as [Hroom1 Hids].
    destruct (polling_step cfg t i e es w) as [-> | ->]; auto.
Qed.

(** A cycle writes a status into the cache, never [None]. *)
Lemma check_once_keeps_known cfg e t w k :
  cached w k <> None -> cached (final (check_once cfg e t w)) k <> None.
Proof.
  intros Hk.
  destruct (check_once_world cfg e t w) as [_ [H | (d & k0 & _ & _ & _ & H)]];
    cbn zeta in H; unfold cached in *; rewrite H; [exact Hk |].
  rewrite lookup_insert. case_decide; [discriminate | exact Hk].
Qed.

(** X4: a status, once cached for a URL, never goes back to Unknown: no
    cycle of any worker writes [None] or removes the entry, so after any
    number of cycles the URL still has a status. *)
Theorem known_status_stays_known cfg t i es w k :
  cached w k <> None ->
  cached (final (polling cfg t i es w)) k <> None
  /\ forall e, cached (final (check_once cfg e t w)) k <> None.
Proof.
  intros Hk. split.
  - apply (polling_invariant cfg t i (fun w => cached w k <> None)); [| exact Hk].
    intros e w0. apply check_once_keeps_known.
  - intros e. apply check_once_keeps_known, Hk.
Qed.

(** ** Targets that share a URL *)


(** ** The stream of notifications *)






(** ** The interval of a target *)

Lemma periodic_worker_run cfg d es w :
  periodic_worker cfg (PDict d) es w
  = polling cfg (PDict d)
      (default (PInt (CHECK_INTERVAL cfg)) (dict_lookup d "interval")) es w.
Proof.
  unfold periodic_worker. rewrite bind_run. cbn [py_get lift ret].
  destruct (polling _ _ _ _ _) as [[r w'] t]. reflexivity.
Qed.

(** X6: between two cycles the worker sleeps the target's [interval], and
    [CHECK_INTERVAL] when the target has no such key (an integer that a
    float can hold, in both cases).  The default is used for a missing key
    only: when the key is there with [null], a string, a list or a
    mapping, the worker probes once and then ends with the [TypeError] of
    the first sleep; and with an integer too large for a float it ends
    there with an [OverflowError]. *)
Theorem interval_of_a_target cfg d k es w :
  py_hash (url_of d) = inr k ->
  Forall completes es ->
  (dict_lookup d "interval" = None ->
   CHECK_INTERVAL cfg < sleep_limit ->
   sleeps (events (periodic_worker cfg (PDict d) es w))
   = replicate (length es) (CHECK_INTERVAL cfg))
  /\ (forall n, dict_lookup d "interval" = Some (PInt n) ->
      n < sleep_limit ->
      sleeps (events (periodic_worker cfg (PDict d) es w)) = replicate (length es) n)
  /\ (forall v e es',
        dict_lookup d "interval" = Some v ->
        v = PNone \/ (exists s, v = PStr s) \/ (exists l, v = PList l)
        \/ (exists d', v = PDict d') ->
        completes e ->
        let run := periodic_worker cfg (PDict d) (e :: es') w in
        (exists msg, result run = Raise (Exn TypeError msg))
        /\ count is_probe (events run) = 1%nat
        /\ sleeps (events run) = [])
  /\ (forall n e es',
        dict_lookup d "interval" = Some (PInt n) ->
        sleep_limit <= n ->
        completes e ->
        let run := periodic_worker cfg (PDict d) (e :: es') w in
        (exists msg, result run = Raise (Exn OverflowError msg))
        /\ count is_probe (events run) = 1%nat
        /\ sleeps (events run) = []).
Proof.
  intros Hk Hes. split; [| split; [| split]].
  - intros Hi Hlim. rewrite periodic_worker_run, Hi. cbn [from_option id].
    destruct (polling_completes cfg d (CHECK_INTERVAL cfg) k es w Hlim Hk Hes)
      as (w' & t & -> & Hs & _).
    exact Hs.
  - intros n Hi Hlim. rewrite periodic_worker_run, Hi. cbn [from_option id].
    destruct (polling_completes cfg d n k es w Hlim Hk Hes) as (w' & t & -> & Hs & _).
    exact Hs.
  - intros v e es' Hi Hv He. cbn zeta. rewrite periodic_worker_run, Hi.
    cbn [from_option id polling].
    destruct (check_once_completes cfg e d w k He Hk)
      as (w1 & t1 & Hrun & Hs & Hp & _).
    rewrite (bind_ret _ _ w tt w1 t1 Hrun). rewrite bind_run.
    destruct Hv as [-> | [[s ->] | [[l ->] | [d' ->]]]];
      unfold result, events; cbn [sleep raise fst snd app];
      rewrite app_nil_r; eauto.
  - intros n e es' Hi Hlim He. cbn zeta. rewrite periodic_worker_run, Hi.
    cbn [from_option id polling].
    destruct (check_once_completes cfg e d w k He Hk)
      as (w1 & t1 & Hrun & Hs & Hp & _).
    rewrite (bind_ret _ _ w tt w1 t1 Hrun). rewrite bind_run, (sleep_overflow n w1 Hlim).
    unfold result, events; cbn [fst snd app]. rewrite app_nil_r. eauto.
Qed.

(** ** The transports *)

(** X7: a configured mail transport never changes the state.  When the
    message cannot be built (a line break in the subject, a malformed
    address), the exception leaves [send_email_sync] before any session is
    opened and nothing is logged.  When it can, the transport does not
    raise: it opens one SMTP session for a message to [EMAIL_TO] with the
    given subject and body; the sender is [SMTP_USER], or
    monitor@example.com when that is empty; it logs in only when both
    [SMTP_USER] and [SMTP_PASS] are set; and when the session raises, the
    exception is logged once as an error and nothing else happens. *)
Theorem mail_failure_is_logged cfg e subject body w :
  SMTP_HOST cfg <> "" ->
  EMAIL_TO cfg <> "" ->
  (forall x, email_build e = Some x ->
     send_email_sync cfg e subject body w = (Raise x, w, []))
  /\ (email_build e = None ->
      exists login msg,
        send_email_sync cfg e subject body w
        = (Ret tt, w,
           EvSmtp (SMTP_HOST cfg) (SMTP_PORT cfg) login msg
             :: match smtp_session e with
                | Some x => [EvLog ERROR "Sending email failed: %s" [Lit (exn_str x)]]
                | None => []
                end)
        /\ To msg = EMAIL_TO cfg /\ Subject msg = subject /\ content msg = body
        /\ (SMTP_USER cfg = "" -> From_ msg = "monitor@example.com")
        /\ (SMTP_USER cfg <> "" -> From_ msg = SMTP_USER cfg)
        /\ (SMTP_USER cfg <> "" /\ SMTP_PASS cfg <> ""
            -> login = Some (SMTP_USER cfg, SMTP_PASS cfg))
        /\ (SMTP_USER cfg = "" \/ SMTP_PASS cfg = "" -> login = None)).
Proof.
  intros Hh Ht. unfold send_email_sync.
  assert (Hcfg : py_not (SMTP_HOST cfg) || py_not (EMAIL_TO cfg) = false).
  { apply orb_false_iff. split; apply not_true_is_false; rewrite py_not_true; assumption. }
  rewrite Hcfg, bind_run. split.
  { intros x ->. reflexivity. }
  intros ->. cbn [may_raise ret]. unfold try_except. rewrite bind_run. cbn [emit].
  do 2 eexists. split.
  { destruct (smtp_session e); reflexivity. }
  cbn [To Subject content From_]. repeat split.
  - intros Hu. apply py_not_true in Hu. rewrite Hu. reflexivity.
  - intros Hu. destruct (py_not (SMTP_USER cfg)) eqn:E; [| reflexivity].
    apply py_not_true in E. contradiction.
  - intros [Hu Hp].
    destruct (py_not (SMTP_USER cfg)) eqn:E1; [apply py_not_true in E1; contradiction |].
    destruct (py_not (SMTP_PASS cfg)) eqn:E2; [apply py_not_true in E2; contradiction |].
    reflexivity.
  - intros [Hu | Hp].
    + apply py_not_true in Hu. rewrite Hu. reflexivity.
    + apply py_not_true in Hp. rewrite Hp, andb_false_r. reflexivity.
Qed.

Lemma mail_session_run cfg e subject body w :
  SMTP_HOST cfg <> "" ->
  EMAIL_TO cfg <> "" ->
  email_build e = None ->
  exists login msg tl,
    send_email_sync cfg e subject body w
    = (Ret tt, w, EvSmtp (SMTP_HOST cfg) (SMTP_PORT cfg) login msg :: tl)
    /\ content msg = body /\ Subject msg = subject /\ sent tl = [].
Proof.
  intros Hh Ht Hb. unfold send_email_sync.
  assert (Hcfg : py_not (SMTP_HOST cfg) || py_not (EMAIL_TO cfg) = false).
  { apply orb_false_iff. split; apply not_true_is_false; rewrite py_not_true; assumption. }
  rewrite Hcfg, bind_run, Hb. cbn [may_raise ret].
  unfold try_except. rewrite bind_run. cbn [emit].
  destruct (smtp_session e); do 3 eexists; (split; [reflexivity |]);
    repeat split; reflexivity.
Qed.

Lemma sent_app t1 t2 : sent (t1 ++ t2) = sent t1 ++ sent t2.
Proof. unfold sent. apply filter_app. Qed.

(** X8: with both transports configured, a notification whose POST to
    Telegram gets an answer (any status code) and whose mail message can
    be built reaches both: [notify] returns, leaves the state as it is,
    posts once to the bot's [sendMessage] URL for [TELEGRAM_CHAT_ID] and
    then opens one SMTP session, and the mail's body is the text that was
    posted.  A failure of the SMTP session changes nothing of that. *)
Theorem notification_reaches_both_transports cfg e name url st details w :
  TELEGRAM_TOKEN cfg <> "" -> TELEGRAM_CHAT_ID cfg <> "" ->
  SMTP_HOST cfg <> "" -> EMAIL_TO cfg <> "" ->
  (forall x, telegram_post e <> PostRaises x) ->
  email_build e = None ->
  let run := notify cfg e name url st details w in
  result run = Ret tt
  /\ final run = w
  /\ exists text login msg,
       sent (events run)
       = [EvTelegramPost ("https://api.telegram.org/bot" +:+ TELEGRAM_TOKEN cfg +:+ "/sendMessage")
            (TELEGRAM_CHAT_ID cfg) text;
          EvSmtp (SMTP_HOST cfg) (SMTP_PORT cfg) login msg]
       /\ content msg = text
       /\ Subject msg = [Lit "Monitor: "; Fmt name; Lit " "; Lit (status_str st)].
Proof.
  intros Htok Hchat Hh Ht Hp Hb run. subst run. unfold notify.
  set (text := [Lit "["; _; _; _; _; _; _; _]).
  set (subject := [Lit "Monitor: "; _; _; _]).
  rewrite (bind_ret _ _ w tt w [EvNotify name url st details]) by reflexivity.
  destruct (mail_session_run cfg e subject text w Hh Ht Hb)
    as (login & msg & tl & Hm & Hc & Hs & Htl).
  assert (Htg : exists tl', send_telegram cfg e text w
            = (Ret tt, w, EvTelegramPost ("https://api.telegram.org/bot" +:+ TELEGRAM_TOKEN cfg +:+ "/sendMessage")
                            (TELEGRAM_CHAT_ID cfg) text :: tl')
            /\ sent tl' = []).
  { unfold send_telegram.
    assert (Hcfg : py_not (TELEGRAM_TOKEN cfg) || py_not (TELEGRAM_CHAT_ID cfg) = false).
    { apply orb_false_iff. split; apply not_true_is_false; rewrite py_not_true; assumption. }
    rewrite Hcfg, bind_run. cbn [emit].
    destruct (telegram_post e) as [code b | x]; [| destruct (Hp x eq_refl)].
    destruct (negb (code =? 200)); eexists; split; reflexivity. }
  destruct Htg as (tl' & Htg & Htl').
  rewrite (bind_ret _ _ w tt w _ Htg), Hm.
  unfold result, final, events. cbn [fst snd].
  split; [reflexivity |]. split; [reflexivity |].
  exists text, login, msg. split; [| split; assumption].
  change (sent ([EvNotify name url st details]
                ++ (EvTelegramPost ("https://api.telegram.org/bot" +:+ TELEGRAM_TOKEN cfg +:+ "/sendMessage")
                      (TELEGRAM_CHAT_ID cfg) text :: tl')
                ++ EvSmtp (SMTP_HOST cfg) (SMTP_PORT cfg) login msg :: tl)
          = [EvTelegramPost ("https://api.telegram.org/bot" +:+ TELEGRAM_TOKEN cfg +:+ "/sendMessage")
               (TELEGRAM_CHAT_ID cfg) text;
             EvSmtp (SMTP_HOST cfg) (SMTP_PORT cfg) login msg]).
  rewrite !sent_app.
  change (sent [EvNotify name url st details]) with (@nil event).
  change (sent (EvTelegramPost ?a ?b ?c :: tl')) with (EvTelegramPost a b c :: sent tl').
  change (sent (EvSmtp ?a ?b ?c ?m :: tl)) with (EvSmtp a b c m :: sent tl).
  rewrite Htl, Htl'. reflexivity.
Qed.

(** ** One GET per cycle *)

(** X11: a cycle of a dict target sends exactly one GET, before anything
    else, to the target's [url] with the configured [TIMEOUT]: a GET that
    fails is not tried again within the cycle, and a cycle that ends early
    (the append or the notification raises) has still sent its GET. *)
Theorem one_get_per_cycle cfg e d w :
  exists t,
    events (check_once cfg e (PDict d) w) = EvGet (url_of d) (TIMEOUT cfg) :: t
    /\ count is_probe t = 0%nat.
Proof.
  destruct (check_once_dict cfg e d w)
    as [(x & _ & ->) | [(x & _ & _ & ->) | [(k & _ & _ & _ & ->)
       | (k & r & t & _ & _ & _ & -> & Ht & _)]]];
    unfold events; cbn [snd]; eexists; (split; [reflexivity |]); try reflexivity.
  change (count is_probe (?a :: t)) with (count is_probe t).
  apply delivery_no_probe, Ht.
Qed.

(** ** The dashboard over any table *)

Lemma place_perm r l : place r l ≡ₚ r :: l.
Proof.
  induction l as [| r' rest IH]; [reflexivity |].
  cbn [place]. destruct (checks.id r' <? checks.id r); [reflexivity |].
  rewrite IH. apply perm_swap.
Qed.

Lemma order_perm t : order_by_id_desc t ≡ₚ t.
Proof.
  unfold order_by_id_desc. induction t as [| r t IH]; [reflexivity |].
  cbn [foldr]. rewrite place_perm, IH. reflexivity.
Qed.

Lemma place_sorted r l :
  StronglySorted newest_first l -> StronglySorted newest_first (place r l).
Proof.
  induction 1 as [| r' rest Hs IH Hall]; [repeat constructor |].
  cbn [place]. destruct (Z.ltb_spec (checks.id r') (checks.id r)).
  - constructor; [constructor; assumption |].
    constructor; [unfold newest_first; lia |].
    eapply Forall_impl; [exact Hall |]. unfold newest_first. cbn. intros; lia.
  - constructor; [exact IH |].
    rewrite place_perm. constructor; [unfold newest_first; lia | exact Hall].
Qed.

Lemma order_sorted t : StronglySorted newest_first (order_by_id_desc t).
Proof.
  unfold order_by_id_desc. induction t as [| r t IH]; [constructor |].
  cbn [foldr]. apply place_sorted, IH.
Qed.

(** X9: whatever rows the table holds and however they are stored, the
    dashboard shows the 100 rows with the largest ids (all of them when
    there are fewer), largest id first: the rows it shows and the rows it
    leaves out are together the rows of the table, and no row left out has
    a larger id than a row shown. *)
Theorem dashboard_shows_largest_ids t :
  let shown := take 100 (order_by_id_desc t) in
  let omitted := drop 100 (order_by_id_desc t) in
  select_recent t = map columns shown
  /\ shown ++ omitted ≡ₚ t
  /\ length shown = Nat.min 100 (length t)
  /\ StronglySorted newest_first shown
  /\ forall r r', r ∈ shown -> r' ∈ omitted -> checks.id r' <= checks.id r.
Proof.
  intros shown omitted.
  pose proof (order_sorted t) as Hs.
  rewrite <- (take_drop 100 (order_by_id_desc t)) in Hs. fold shown omitted in Hs.
  split; [reflexivity |]. split; [| split; [| split]].
  - subst shown omitted. rewrite take_drop. apply order_perm.
  - subst shown. rewrite length_take, (Permutation_length (order_perm t)). reflexivity.
  - eapply StronglySorted_app_1_l, Hs.
  - intros r r' Hr Hr'.
    exact (StronglySorted_app_1_elem_of _ _ _ _ _ Hs Hr Hr').
Qed.

(** ** An entry without [url] *)

Lemma seed_key_error good : forall bad rest w,
  forallb registrable good = true ->
  dict_lookup bad "url" = None ->
  result (seed (good ++ PDict bad :: rest) w) = Raise (Exn KeyError "url").
Proof.
  induction good as [| g gs IH]; intros bad rest w Hg Hb.
  - cbn [app seed]. rewrite bind_run. cbn [py_getitem]. rewrite Hb. reflexivity.
  - cbn [forallb] in Hg. apply andb_true_iff in Hg as [Hg Hgs].
    cbn [app seed]. rewrite bind_run. unfold registrable in Hg.
    destruct (py_getitem g "url") as [x | u]; [discriminate |]. cbn [lift ret].
    rewrite bind_run.
    destruct (py_hash u) as [x | k] eqn:Hk; [discriminate |].
    rewrite (cache_set_run u k None w Hk).
    specialize (IH bad rest {| state_cache := <[k:=None]> (state_cache w); db := db w |} Hgs Hb).
    destruct (seed (gs ++ PDict bad :: rest) _) as [[r w1] t1].
    unfold result in *. cbn [fst] in *. exact IH.
Qed.

(** X10: when an entry of the target list is a mapping without [url], and
    the entries before it are well formed, start-up ends with
    [KeyError: 'url']: no task is created, nothing is served, and the
    history is not touched. *)
Theorem entry_without_url_is_key_error cfg s w d good bad rest :
  sqlite_create s = None ->
  targets_file s = Loaded (PDict d) ->
  py_iter (targets_of d) = inr (good ++ PDict bad :: rest) ->
  forallb registrable good = true ->
  dict_lookup bad "url" = None ->
  result (main cfg s w) = Raise (Exn KeyError "url")
  /\ events (main cfg s w) = []
  /\ db (final (main cfg s w)) = db w.
Proof.
  intros Hc Hf Hts Hg Hb.
  pose proof (seed_key_error good bad rest w Hg Hb) as Hseed.
  unfold main. rewrite bind_run.
  destruct (init_app_run s w)
    as [(x & w' & Hrun & Hdb) | (ts & w' & Hrun & _ & _ & (d' & Hd' & Hts') & _)].
  - rewrite Hrun. unfold result, events, final. cbn [fst snd].
    split; [| split; [reflexivity | exact Hdb]].
    revert Hrun. unfold init_app, init_db, read_targets.
    rewrite bind_run, Hc. cbn [may_raise ret]. rewrite bind_run, bind_run, Hf.
    cbn [mret M_ret ret py_get lift]. fold (targets_of d).
    rewrite bind_run, Hts. cbn [lift ret]. rewrite bind_run.
    destruct (seed _ w) as [[r w1] t1]. unfold result in Hseed. cbn [fst] in Hseed.
    subst r. intros H. injection H as <- _ _. reflexivity.
  - exfalso. pose proof (init_app_returns s w) as [_ Hret].
    rewrite Hrun in Hret. destruct (Hret eq_refl) as (ts' & _ & d'' & Hd'' & Hts'' & Hall).
    rewrite Hf in Hd''. injection Hd'' as <-. rewrite Hts in Hts''. injection Hts'' as <-.
    rewrite forallb_app in Hall. apply andb_true_iff in Hall as [_ Hall].
    cbn [forallb] in Hall. unfold registrable at 1 in Hall. cbn [py_getitem] in Hall.
    rewrite Hb in Hall. discriminate.
Qed.

(** ** The page *)

Lemma render_time_cells items :
  length (filter (fun p => is_time p = true) (render items)) = length items.
Proof.
  unfold render. cbn [app]. rewrite !filter_cons. cbn [is_time].
  destruct (decide (false = true)); [discriminate |].
  rewrite filter_app, length_app. cbn. rewrite Nat.add_0_r.
  induction items as [| [[[[[name url] st] code] latency] ts] items IH]; [reflexivity |].
  cbn [map concat]. rewrite filter_app, length_app, IH.
  destruct code, latency; reflexivity.
Qed.

(** X12: the dashboard has no [try]: an exception of the read leaves
    [handle_index].  When the read returns and the times of the rows can
    be formatted, the page has one table row (one time cell) per row read:
    as many as the table has rows, and never more than 100; an empty table
    gives a page without rows.  Whatever happens, serving the page changes
    neither the table nor the cache. *)
Theorem page_has_a_row_per_record q w :
  final (handle_index q w) = w
  /\ events (handle_index q w) = []
  /\ (forall x, sqlite_select q = Some x -> result (handle_index q w) = Raise x)
  /\ (sqlite_select q = None ->
      Forall (fun it => localtime q (snd it) = None) (select_recent (db w)) ->
      exists page,
        result (handle_index q w) = Ret page
        /\ length (filter (fun p => is_time p = true) page)
           = Nat.min 100 (length (db w))
        /\ (db w = [] -> filter (fun p => is_time p = true) page = [])).
Proof.
  destruct (handle_index_run q w) as (r & -> & Hx & Hok).
  unfold final, events, result. cbn [fst snd].
  split; [reflexivity |]. split; [reflexivity |]. split; [exact Hx |].
  intros Hq Ht. rewrite (Hok Hq Ht). eexists. split; [reflexivity |]. split.
  - rewrite render_time_cells. unfold select_recent.
    rewrite length_map, length_take, (Permutation_length (order_perm (db w))).
    reflexivity.
  - intros ->. reflexivity.
Qed.

(** ** The further properties at the scenarios *)

(** The ids 3 and 7 of an earlier run are followed by 8 and 9. *)
Lemma history_grows_in_id_order_witness :
  has_room 2 (db with_history)
  /\ ids_increasing (db with_history)
  /\ map checks.id
       (db (final (polling cfg_both (PDict api) (PInt 30) [all_well; much_fails] with_history)))
     = [3; 7; 8; 9]
  /\ ids_increasing
       (db (final (polling cfg_both (PDict api) (PInt 30) [all_well; much_fails] with_history))).
Proof.
  assert (Hr : has_room 2 (db with_history)).
  { split; [reflexivity |]. repeat constructor; cbn; discriminate. }
  assert (H : ids_increasing (db with_history)).
  { repeat constructor; cbn; lia. }
  split; [exact Hr |]. split; [exact H |]. split; [reflexivity |].
  exact (proj2 (history_grows_in_id_order cfg_both (PDict api) (PInt 30)
                  [all_well; much_fails] with_history) Hr H).
Defined.


(** [api], known to be UP, still has a status after two cycles. *)
Lemma known_status_stays_known_witness :
  cached known_up api_key <> None
  /\ cached (final (polling cfg_both (PDict api) (PInt 30) [much_fails; all_well] known_up))
       api_key <> None.
Proof.
  assert (H : cached known_up api_key <> None) by (vm_compute; discriminate).
  split; [exact H |].
  exact (proj1 (known_status_stays_known cfg_both (PDict api) (PInt 30)
                  [much_fails; all_well] known_up api_key H)).
Defined.



Lemma one_cycle_completes : Forall completes [all_well].
Proof. repeat constructor; intros x H; discriminate H. Defined.

(** [interval: null]: one probe, then the worker ends. *)
Lemma interval_of_a_target_witness :
  dict_lookup no_interval "interval" = Some PNone
  /\ (exists msg,
        result (periodic_worker cfg_both (PDict no_interval) [all_well; all_well] seeded)
        = Raise (Exn TypeError msg))
  /\ count is_probe
       (events (periodic_worker cfg_both (PDict no_interval) [all_well; all_well] seeded))
     = 1%nat.
Proof.
  split; [reflexivity |].
  destruct (interval_of_a_target cfg_both no_interval api_key [all_well] seeded
              eq_refl one_cycle_completes) as (_ & _ & H & _).
  destruct (H PNone all_well [all_well] eq_refl (or_introl eq_refl)
              (Forall_inv one_cycle_completes)) as (Hr & Hp & _).
  split; [exact Hr | exact Hp].
Defined.

(** The mail server is down: one session, one error record, no exception.
    The subject has a line break: the exception leaves the transport. *)
Lemma mail_failure_is_logged_witness :
  SMTP_HOST cfg_mail <> "" /\ EMAIL_TO cfg_mail <> ""
  /\ (exists msg,
        send_email_sync cfg_mail much_fails [Lit "Monitor"] [Lit "down"] seeded
        = (Ret tt, seeded,
           [EvSmtp "smtp.example.com" 587 None msg;
            EvLog ERROR "Sending email failed: %s" [Lit "Connection refused"]])
        /\ From_ msg = "monitor@example.com")
  /\ send_email_sync cfg_mail line_break [Lit "Monitor"] [Lit "down"] seeded
     = (Raise (Exn ValueError
                 "Header values may not contain linefeed or carriage return characters"),
        seeded, []).
Proof.
  assert (Hh : SMTP_HOST cfg_mail <> "") by discriminate.
  assert (Ht : EMAIL_TO cfg_mail <> "") by discriminate.
  split; [exact Hh |]. split; [exact Ht |]. split.
  - destruct (mail_failure_is_logged cfg_mail much_fails [Lit "Monitor"] [Lit "down"]
                seeded Hh Ht) as (_ & H).
    destruct (H eq_refl) as (login & msg & Hrun & _ & _ & _ & Hfrom & _ & _ & Hlogin).
    rewrite (Hlogin (or_introl eq_refl)) in Hrun.
    exists msg. split; [exact Hrun | exact (Hfrom eq_refl)].
  - exact (proj1 (mail_failure_is_logged cfg_mail line_break [Lit "Monitor"]
                    [Lit "down"] seeded Hh Ht) _ eq_refl).
Defined.

(** Telegram answers 502 and the mail server is down: both were tried. *)
Lemma notification_reaches_both_transports_witness :
  (forall x, telegram_post much_fails <> PostRaises x)
  /\ email_build much_fails = None
  /\ result (notify cfg_both much_fails (PStr "api") (PStr "https://example.com/health")
               DOWN "" seeded) = Ret tt
  /\ length (sent (events (notify cfg_both much_fails (PStr "api")
                             (PStr "https://example.com/health") DOWN "" seeded)))
     = 2%nat.
Proof.
  assert (Hp : forall x, telegram_post much_fails <> PostRaises x) by discriminate.
  split; [exact Hp |]. split; [reflexivity |].
  destruct (notification_reaches_both_transports cfg_both much_fails (PStr "api")
              (PStr "https://example.com/health") DOWN "" seeded
              ltac:(discriminate) ltac:(discriminate) ltac:(discriminate)
              ltac:(discriminate) Hp eq_refl) as (Hr & _ & text & login & msg & Hs & _).
  split; [exact Hr |]. rewrite Hs. reflexivity.
Defined.


(** An empty table gives a page without rows. *)
Lemma page_has_a_row_per_record_witness :
  exists page,
    result (handle_index page_ok fresh) = Ret page
    /\ filter (fun p => is_time p = true) page = [].
Proof.
  destruct (page_has_a_row_per_record page_ok fresh) as (_ & _ & _ & H).
  destruct (H eq_refl ltac:(constructor)) as (page & Hrun & _ & Hempty).
  exists page. split; [exact Hrun | exact (Hempty eq_refl)].
Defined.

(** The second entry has a name and no url. *)
Lemma entry_without_url_is_key_error_witness :
  py_iter (targets_of [("targets", PList [PDict api; PDict [("name", PStr "db")]])])
  = inr ([PDict api] ++ PDict [("name", PStr "db")] :: [])
  /\ main cfg_both url_missing fresh
     = (Raise (Exn KeyError "url"), final (main cfg_both url_missing fresh), []).
Proof.
  split; [reflexivity |].
  destruct (entry_without_url_is_key_error cfg_both url_missing fresh
              [("targets", PList [PDict api; PDict [("name", PStr "db")]])]
              [PDict api] [("name", PStr "db")] []
              eq_refl eq_refl eq_refl eq_refl eq_refl) as (Hr & He & _).
  destruct (main cfg_both url_missing fresh) as [[r w'] t].
  unfold result, events, final in *. cbn [fst snd] in *. subst. reflexivity.
Defined.
